(** * Keycloak user API (backend/api.py): model and verified properties

    The service is a FastAPI application with one route that provisions a
    user in Keycloak through its Admin REST API.  The model below follows
    api.py function by function.  Outbound HTTP calls are the only effects
    besides logging; they are modelled by a state-and-exception monad whose
    state records every issued request and every log record, and whose
    answers come from an arbitrary, possibly stateful, identity service. *)

From Stdlib Require Import String Ascii List ZArith.
From Stdlib Require PrimFloat.
Import ListNotations.
Local Open Scope string_scope.
Local Open Scope Z_scope.
Local Open Scope list_scope.

(** ** Python values *)

Module Py.

#[local] Set Warnings "-register-all".

(** The values that flow through api.py: request fields, the payload dict,
    and whatever [Response.json()] decodes.  Dicts keep insertion order and
    have string keys (all keys in api.py and in JSON objects are strings).
    Floats are binary64 values, as in Python: the decoder yields infinities
    for literals out of range (1e999) and accepts NaN and Infinity. *)
Inductive pyval : Type :=
| PyNone
| PyBool (b : bool)
| PyInt (z : Z)
| PyFloat (f : PrimFloat.float)
| PyStr (s : string)
| PyList (l : list pyval)
| PyDict (d : list (string * pyval)).

(** Exceptions that can escape the functions of api.py.  [HTTPException] is
    raised by the code itself; the others come from subscripting, attribute
    access, [Response.json()] and the [requests] transport. *)
Inductive exn : Type :=
| HTTPException (status_code : Z) (detail : string)
| KeyError
| IndexError
| TypeError
| AttributeError
| JSONDecodeError
| RequestException.

Inductive result (A : Type) : Type :=
| Ok (a : A)
| Raise (e : exn).
Arguments Ok {A} a.
Arguments Raise {A} e.

Definition is_ok {A} (r : result A) : bool :=
  match r with Ok _ => true | Raise _ => false end.

(** [x is None] *)
Definition is_None (v : pyval) : bool :=
  match v with PyNone => true | _ => false end.

(** An [Optional[str]] field as a Python value. *)
Definition of_opt (o : option string) : pyval :=
  match o with Some s => PyStr s | None => PyNone end.

Definition str_truthy (s : string) : bool :=
  match s with EmptyString => false | String _ _ => true end.

(** Truth value of an [Optional[str]]: [None] and the empty string are false. *)
Definition opt_truthy (o : option string) : bool :=
  match o with Some s => str_truthy s | None => false end.

(** Python truth value testing. *)
Definition truthy (v : pyval) : bool :=
  match v with
  | PyNone => false
  | PyBool b => b
  | PyInt z => negb (z =? 0)
  | PyFloat f => negb (PrimFloat.eqb f PrimFloat.zero)
  | PyStr s => str_truthy s
  | PyList l => match l with [] => false | _ :: _ => true end
  | PyDict d => match d with [] => false | _ :: _ => true end
  end.

(** Whether [json.dumps(v, allow_nan=False)] succeeds: it raises
    [ValueError] on a NaN or an infinity anywhere in [v].  Limits of the
    interpreter (recursion depth, memory) are outside the model. *)
Fixpoint json_serialisable (v : pyval) : bool :=
  match v with
  | PyFloat f => negb (PrimFloat.is_nan f || PrimFloat.is_infinity f)
  | PyList l => forallb json_serialisable l
  | PyDict d => forallb (fun kv => json_serialisable (snd kv)) d
  | _ => true
  end.

(** *** Dicts *)

Fixpoint dict_lookup {V : Type} (k : string) (d : list (string * V)) : option V :=
  match d with
  | [] => None
  | (k', v) :: d' => if String.eqb k k' then Some v else dict_lookup k d'
  end.

Definition dict_keys {V : Type} (d : list (string * V)) : list string :=
  map fst d.

(** [d.get(k)] on a dict: the value, or [None] when the key is missing. *)
Definition dict_get (d : list (string * pyval)) (k : string) : pyval :=
  match dict_lookup k d with Some v => v | None => PyNone end.

(** [{k: v for k, v in d.items() if v is not None}] *)
Definition drop_None (d : list (string * pyval)) : list (string * pyval) :=
  filter (fun kv => negb (is_None (snd kv))) d.

(** *** Subscription and attribute access on decoded JSON *)

Inductive subscript : Type :=
| SubStr (k : string)
| SubInt (i : Z).

(** Position designated by index [i] in a sequence of length [len]
    (negative indices count from the end). *)
Definition seq_index (len : nat) (i : Z) : option nat :=
  if 0 <=? i then
    if i <? Z.of_nat len then Some (Z.to_nat i) else None
  else
    if 0 <=? Z.of_nat len + i then Some (Z.to_nat (Z.of_nat len + i)) else None.

(** [v[k]] *)
Definition py_getitem (v : pyval) (k : subscript) : result pyval :=
  match v, k with
  | PyDict d, SubStr k =>
      match dict_lookup k d with Some x => Ok x | None => Raise KeyError end
  | PyDict _, SubInt _ => Raise KeyError
  | PyList l, SubInt i =>
      match seq_index (length l) i with
      | Some n => match nth_error l n with Some x => Ok x | None => Raise IndexError end
      | None => Raise IndexError
      end
  | PyList _, SubStr _ => Raise TypeError
  | PyStr s, SubInt i =>
      match seq_index (String.length s) i with
      | Some n =>
          match String.get n s with
          | Some c => Ok (PyStr (String c EmptyString))
          | None => Raise IndexError
          end
      | None => Raise IndexError
      end
  | PyStr _, SubStr _ => Raise TypeError
  | _, _ => Raise TypeError
  end.

(** [v.get(k)]: only dicts have the method. *)
Definition py_get (v : pyval) (k : string) : result pyval :=
  match v with
  | PyDict d => Ok (dict_get d k)
  | _ => Raise AttributeError
  end.

(** *** Strings *)

(** [s.rstrip(c)] for a one-character [c]. *)
Fixpoint rstrip (c : ascii) (s : string) : string :=
  match s with
  | EmptyString => EmptyString
  | String a s' =>
      match rstrip c s' with
      | EmptyString => if Ascii.eqb a c then EmptyString else String a EmptyString
      | t => String a t
      end
  end.

(** [s.split(sep)] for a one-character [sep]; the result is never empty. *)
Fixpoint split (sep : ascii) (s : string) : list string :=
  match s with
  | EmptyString => [EmptyString]
  | String a s' =>
      if Ascii.eqb a sep then EmptyString :: split sep s'
      else match split sep s' with
           | [] => [String a EmptyString]
           | h :: t => String a h :: t
           end
  end.

Definition lower_ascii (a : ascii) : ascii :=
  let n := nat_of_ascii a in
  if (Nat.leb 65 n && Nat.leb n 90)%bool then ascii_of_nat (n + 32) else a.

Fixpoint lower (s : string) : string :=
  match s with
  | EmptyString => EmptyString
  | String a s' => String (lower_ascii a) (lower s')
  end.

End Py.
Export Py.

(** ** HTTP exchanges with the identity service *)

Module Http.

Inductive method : Type := GET | POST | PUT.

Definition method_eqb (a b : method) : bool :=
  match a, b with
  | GET, GET | POST, POST | PUT, PUT => true
  | _, _ => false
  end.

(** An f-string before rendering: literal text and [{x}] fields.  The token
    and the user id placed in URLs and headers are decoded JSON values, so
    the fields carry Python values; rendering is Python's [format]. *)
Inductive frag : Type :=
| Lit (s : string)
| Fmt (v : pyval).

Definition fstring : Type := list frag.

(** The [data=] (form-encoded) or [json=] argument of a request. *)
Inductive body : Type :=
| NoBody
| Data (d : list (string * pyval))
| Json (v : pyval).

Record request : Type := mkRequest {
  req_method : method;
  req_url : fstring;
  req_params : list (string * pyval);
  req_headers : list (string * fstring);
  req_body : body;
  req_timeout : Z
}.

(** What api.py reads of a [requests.Response]: [json] is [None] when the
    body does not decode, in which case [Response.json()] raises. *)
Record response : Type := mkResponse {
  status_code : Z;
  headers : list (string * string);
  text : string;
  json : option pyval
}.

(** A call either is answered or fails in transport (connection error,
    timeout), in which case [requests] raises. *)
Inductive outcome : Type :=
| Answered (r : response)
| NoAnswer.

(** [resp.headers.get(name, default)]; header names compare without case. *)
Fixpoint headers_get (h : list (string * string)) (name default : string) : string :=
  match h with
  | [] => default
  | (k, v) :: h' =>
      if String.eqb (lower k) (lower name) then v else headers_get h' name default
  end.

Definition HTTP_201_CREATED : Z := 201.
Definition HTTP_502_BAD_GATEWAY : Z := 502.

End Http.
Export Http.

(** ** Logging *)

Inductive level : Type := INFO | WARNING | ERROR.

(** A log record: level, %-format string and its arguments. *)
Definition log_record : Type := (level * string * list pyval)%type.

(** ** Configuration *)

Record config : Type := mkConfig {
  KEYCLOAK_BASE : string;
  KEYCLOAK_REALM : string;
  KEYCLOAK_ADMIN_REALM : string;
  KEYCLOAK_ADMIN_USER : option string;
  KEYCLOAK_ADMIN_PASS : option string;
  KEYCLOAK_CLIENT_ID : string
}.

Definition getenv_default (environ : string -> option string) (k d : string) : string :=
  match environ k with Some v => v | None => d end.

(** The module-level assignments of api.py, reading [os.environ]. *)
Definition load_config (environ : string -> option string) : config :=
  {| KEYCLOAK_BASE := rstrip "/" (getenv_default environ "KEYCLOAK_BASE_URL" "http://localhost:8080");
     KEYCLOAK_REALM := getenv_default environ "KEYCLOAK_REALM" "master";
     KEYCLOAK_ADMIN_REALM := getenv_default environ "KEYCLOAK_ADMIN_REALM" "master";
     KEYCLOAK_ADMIN_USER := environ "KEYCLOAK_ADMIN_USERNAME";
     KEYCLOAK_ADMIN_PASS := environ "KEYCLOAK_ADMIN_PASSWORD";
     KEYCLOAK_CLIENT_ID := getenv_default environ "KEYCLOAK_CLIENT_ID" "admin-cli" |}.

(** The warning emitted at import time when admin credentials are missing. *)
Definition startup_logs (cfg : config) : list log_record :=
  if negb (opt_truthy (KEYCLOAK_ADMIN_USER cfg) && opt_truthy (KEYCLOAK_ADMIN_PASS cfg))
  then [(WARNING, "KEYCLOAK_ADMIN_USERNAME or KEYCLOAK_ADMIN_PASSWORD not set; token requests will fail", [])]
  else [].

(** ** Request model *)

(** A validated [UserCreate] instance.  Fields the client omits take the
    class defaults: [None] for the optional strings, [True] for [enabled],
    [False] for [emailVerified]. *)
Record UserCreate : Type := mkUserCreate {
  username : string;
  email : option string;
  firstName : option string;
  lastName : option string;
  password : option string;
  enabled : bool;
  emailVerified : bool
}.

Definition with_password (u : UserCreate) (p : option string) : UserCreate :=
  {| username := username u; email := email u; firstName := firstName u;
     lastName := lastName u; password := p; enabled := enabled u;
     emailVerified := emailVerified u |}.


(** ** A scripted identity service and sample data *)

Module Sample.

(** The service as a script: the answers it will give, in order; a call
    made after the script is exhausted gets no answer. *)
Definition script : Type := list outcome.

Definition play (w : script) (_ : request) : outcome * script :=
  match w with
  | [] => (NoAnswer, [])
  | o :: w' => (o, w')
  end.

Definition environ (k : string) : option string :=
  if String.eqb k "KEYCLOAK_BASE_URL" then Some "http://keycloak:8080/"
  else if String.eqb k "KEYCLOAK_REALM" then Some "waitlist"
  else if String.eqb k "KEYCLOAK_ADMIN_USERNAME" then Some "admin"
  else if String.eqb k "KEYCLOAK_ADMIN_PASSWORD" then Some "hunter2"
  else None.

Definition settings : config := Eval cbv in load_config environ.

(** A request that supplies only the username. *)
Definition alice : UserCreate :=
  {| username := "alice"; email := None; firstName := None; lastName := None;
     password := None; enabled := true; emailVerified := false |}.

Definition alice_pw : UserCreate := with_password alice (Some "s3cret").

Definition alice_blank : UserCreate := with_password alice (Some EmptyString).

Definition token_ok : response :=
  {| status_code := 200; headers := []; text := "access token";
     json := Some (PyDict [("access_token", PyStr "tok"); ("expires_in", PyInt 60)]) |}.

Definition token_denied : response :=
  {| status_code := 401; headers := []; text := "invalid_grant";
     json := Some (PyDict [("error", PyStr "invalid_grant")]) |}.

Definition created_at (location : string) : response :=
  {| status_code := 201; headers := [("location", location)]; text := EmptyString;
     json := None |}.

Definition created_bare : response :=
  {| status_code := 201; headers := [("Content-Length", "0")]; text := EmptyString;
     json := None |}.

Definition conflict : response :=
  {| status_code := 409; headers := []; text := "User exists with same username";
     json := Some (PyDict [("errorMessage", PyStr "User exists with same username")]) |}.

Definition lookup_answer (j : pyval) : response :=
  {| status_code := 200; headers := []; text := "lookup"; json := Some j |}.

Definition found_abc : response :=
  lookup_answer (PyList [PyDict [("id", PyStr "abc-123"); ("username", PyStr "alice")]]).

Definition found_without_id : response :=
  lookup_answer (PyList [PyDict [("username", PyStr "alice")]]).

Definition found_garbled : response :=
  {| status_code := 200; headers := []; text := "<html>"; json := None |}.

Definition not_found : response :=
  {| status_code := 404; headers := []; text := "User not found";
     json := Some (PyDict [("error", PyStr "User not found")]) |}.

Definition no_content : response :=
  {| status_code := 204; headers := []; text := EmptyString; json := None |}.

Definition server_error : response :=
  {| status_code := 500; headers := []; text := "Internal Server Error"; json := None |}.

Definition found_unrenderable : response :=
  lookup_answer (PyList [PyDict [("id", PyFloat PrimFloat.infinity)]]).


(** A request that supplies every field. *)
Definition bob : UserCreate :=
  {| username := "bob"; email := Some "bob@example.org"; firstName := Some "Bob";
     lastName := Some "Builder"; password := Some "pa55"; enabled := false;
     emailVerified := true |}.

Definition bad_request : response :=
  {| status_code := 400; headers := []; text := "Bad Request";
     json := Some (PyDict [("error", PyStr "invalid username")]) |}.

Definition user_42 : string :=
  "http://keycloak:8080/admin/realms/waitlist/users/42".

End Sample.

(** ** The effect monad *)

Section Api.

(** The identity service: any state type and any answering function.  A
    stateless oracle, a scripted list of answers and a real Keycloak are
    all instances. *)
Variable World : Type.
Variable serve : World -> request -> outcome * World.

(** Process-wide settings, fixed at startup. *)
Variable cfg : config.

(** Execution state of one request: the identity service, the outbound
    calls issued so far (oldest first) and the log records emitted. *)
Record state : Type := mkState {
  world : World;
  calls : list request;
  logs : list log_record
}.

(** A computation returns a value or raises, and in both cases leaves the
    state it reached: calls made before an exception stay made. *)
Definition M (A : Type) : Type := state -> result A * state.

Definition ret {A} (a : A) : M A := fun st => (Ok a, st).

Definition raise {A} (e : exn) : M A := fun st => (Raise e, st).

Definition bind {A B} (m : M A) (k : A -> M B) : M B :=
  fun st =>
    match m st with
    | (Ok a, st') => k a st'
    | (Raise e, st') => (Raise e, st')
    end.

Definition lift {A} (r : result A) : M A := fun st => (r, st).

Notation "x <- m ;; k" := (bind m (fun x => k))
  (at level 61, m at next level, right associativity).
Notation "m ;; k" := (bind m (fun _ => k))
  (at level 61, right associativity).

Definition log (lv : level) (fmt : string) (args : list pyval) : M unit :=
  fun st =>
    (Ok tt, {| world := world st; calls := calls st;
               logs := logs st ++ [(lv, fmt, args)] |}).

(** One outbound call through [requests]: recorded, then answered. *)
Definition send (r : request) : M response :=
  fun st =>
    let (o, w) := serve (world st) r in
    let st' := {| world := w; calls := calls st ++ [r]; logs := logs st |} in
    match o with
    | Answered resp => (Ok resp, st')
    | NoAnswer => (Raise RequestException, st')
    end.

(** [resp.json()] *)
Definition response_json (resp : response) : M pyval :=
  match json resp with
  | Some v => ret v
  | None => raise JSONDecodeError
  end.

(** ** The outbound requests api.py builds *)

Definition bearer_headers (token : pyval) : list (string * fstring) :=
  [("Authorization", [Lit "Bearer "; Fmt token]);
   ("Content-Type", [Lit "application/json"])].

Definition token_request : request :=
  {| req_method := POST;
     req_url := [Fmt (PyStr (KEYCLOAK_BASE cfg)); Lit "/realms/";
                 Fmt (PyStr (KEYCLOAK_ADMIN_REALM cfg));
                 Lit "/protocol/openid-connect/token"];
     req_params := [];
     req_headers := [];
     req_body := Data [("grant_type", PyStr "password");
                       ("client_id", PyStr (KEYCLOAK_CLIENT_ID cfg));
                       ("username", of_opt (KEYCLOAK_ADMIN_USER cfg));
                       ("password", of_opt (KEYCLOAK_ADMIN_PASS cfg))];
     req_timeout := 10 |}.

Definition users_url (realm : string) : fstring :=
  [Fmt (PyStr (KEYCLOAK_BASE cfg)); Lit "/admin/realms/"; Fmt (PyStr realm);
   Lit "/users"].

Definition create_request (token : pyval) (realm : string)
    (payload : list (string * pyval)) : request :=
  {| req_method := POST;
     req_url := users_url realm;
     req_params := [];
     req_headers := bearer_headers token;
     req_body := Json (PyDict payload);
     req_timeout := 10 |}.

Definition lookup_request (token : pyval) (realm : string)
    (payload : list (string * pyval)) : request :=
  {| req_method := GET;
     req_url := users_url realm;
     req_params := [("username", dict_get payload "username")];
     req_headers := bearer_headers token;
     req_body := NoBody;
     req_timeout := 10 |}.

Definition reset_password_request (token : pyval) (realm : string)
    (user_id : pyval) (password : option string) (temporary : bool) : request :=
  {| req_method := PUT;
     req_url := [Fmt (PyStr (KEYCLOAK_BASE cfg)); Lit "/admin/realms/";
                 Fmt (PyStr realm); Lit "/users/"; Fmt user_id;
                 Lit "/reset-password"];
     req_params := [];
     req_headers := bearer_headers token;
     req_body := Json (PyDict [("type", PyStr "password");
                               ("value", of_opt password);
                               ("temporary", PyBool temporary)]);
     req_timeout := 10 |}.

(** ** api.py *)

Definition get_admin_token : M pyval :=
  resp <- send token_request ;;
  if negb (status_code resp =? 200) then
    log ERROR "Failed to obtain admin token: %s %s"
        [PyInt (status_code resp); PyStr (text resp)] ;;
    raise (HTTPException HTTP_502_BAD_GATEWAY "Failed to obtain Keycloak admin token")
  else
    j <- response_json resp ;;
    lift (py_getitem j (SubStr "access_token")).

(** The identifier is the last path segment of the [Location] header. *)
Definition user_id_of_location (location : string) : string :=
  if str_truthy location then last (split "/" (rstrip "/" location)) EmptyString else EmptyString.

Definition create_keycloak_user (token : pyval) (realm : string)
    (payload : list (string * pyval)) : M pyval :=
  resp <- send (create_request token realm payload) ;;
  if status_code resp =? 201 then
    let location := headers_get (headers resp) "Location" EmptyString in
    let user_id := user_id_of_location location in
    log INFO "Created user %s (id=%s)" [dict_get payload "username"; PyStr user_id] ;;
    ret (PyStr user_id)
  else if status_code resp =? 409 then
    log WARNING "User already exists: %s" [dict_get payload "username"] ;;
    r <- send (lookup_request token realm payload) ;;
    found <- (if status_code r =? 200
              then j <- response_json r ;; ret (truthy j)
              else ret false) ;;
    if found : bool then
      j <- response_json r ;;
      first <- lift (py_getitem j (SubInt 0)) ;;
      lift (py_get first "id")
    else
      raise (HTTPException 409 "User already exists")
  else
    log ERROR "Error creating user: %s %s"
        [PyInt (status_code resp); PyStr (text resp)] ;;
    raise (HTTPException HTTP_502_BAD_GATEWAY "Failed to create user in Keycloak").

Definition set_user_password (token : pyval) (realm : string) (user_id : pyval)
    (password : option string) (temporary : bool) : M unit :=
  if negb (opt_truthy password) then ret tt
  else
    resp <- send (reset_password_request token realm user_id password temporary) ;;
    if negb (status_code resp =? 204) then
      log ERROR "Failed to set password for user %s: %s %s"
          [user_id; PyInt (status_code resp); PyStr (text resp)] ;;
      raise (HTTPException HTTP_502_BAD_GATEWAY "Failed to set user password")
    else ret tt.

(** The payload dict of [create_user], before and after its [None] values
    are removed. *)
Definition raw_payload (u : UserCreate) : list (string * pyval) :=
  [("username", PyStr (username u));
   ("email", of_opt (email u));
   ("firstName", of_opt (firstName u));
   ("lastName", of_opt (lastName u));
   ("enabled", PyBool (enabled u));
   ("emailVerified", PyBool (emailVerified u))].

Definition payload_of (u : UserCreate) : list (string * pyval) :=
  drop_None (raw_payload u).

Definition create_user (u : UserCreate) : M pyval :=
  token <- get_admin_token ;;
  let payload := payload_of u in
  user_id <- create_keycloak_user token (KEYCLOAK_REALM cfg) payload ;;
  (if opt_truthy (password u)
   then set_user_password token (KEYCLOAK_REALM cfg) user_id (password u) false
   else ret tt) ;;
  ret (PyDict [("id", user_id); ("username", PyStr (username u))]).

Definition health : pyval := PyDict [("status", PyStr "ok")].

(** How the framework turns a status and a content into the reply: the
    content is rendered with [json.dumps(..., allow_nan=False)], and a
    content that cannot be rendered makes the reply a server error. *)
Definition render (status : Z) (content : pyval) : Z * pyval :=
  if json_serialisable content then (status, content)
  else (500, PyStr "Internal Server Error").

(** What the client of [POST /users] receives once the body has been
    validated into [u] and [create_user] is called: the route's declared
    status with the returned dict, rendered as JSON; the status and detail
    of an [HTTPException]; or the server-error reply for any other
    exception. *)
Definition post_users (u : UserCreate) (st : state) : (Z * pyval) * state :=
  match create_user u st with
  | (Ok b, st') => (render HTTP_201_CREATED b, st')
  | (Raise (HTTPException c d), st') => ((c, PyDict [("detail", PyStr d)]), st')
  | (Raise _, st') => ((500, PyStr "Internal Server Error"), st')
  end.


(** ** Observations used to state the properties *)

(** The outbound calls [create_user] adds to the ones already recorded. *)
Definition issued (u : UserCreate) (st : state) : list request :=
  skipn (length (calls st)) (calls (snd (create_user u st))).

Definition is_put (r : request) : bool := method_eqb (req_method r) PUT.

(** The [json=] payloads of the POST calls in a list of requests: the
    creation call is the only POST with a JSON body. *)
Fixpoint creation_payloads (rs : list request) : list (list (string * pyval)) :=
  match rs with
  | [] => []
  | r :: rs' =>
      match req_method r, req_body r with
      | POST, Json (PyDict d) => d :: creation_payloads rs'
      | _, _ => creation_payloads rs'
      end
  end.

(** The response body [create_user] returns for user id [uid]. *)
Definition created (uid : pyval) (u : UserCreate) : pyval :=
  PyDict [("id", uid); ("username", PyStr (username u))].

(** The state a request starts from. *)
Definition initial (w : World) : state :=
  {| world := w; calls := []; logs := [] |}.

(** Keys of a response body. *)
Definition body_keys (b : pyval) : list string :=
  match b with PyDict d => dict_keys d | _ => [] end.

(** The keys [create_user] puts in the payload before filtering. *)
Definition payload_fields : list string :=
  ["username"; "email"; "firstName"; "lastName"; "enabled"; "emailVerified"].

(** The lookup that follows a 409, as [create_keycloak_user] issues it. *)
Definition conflict_calls (token : pyval) (realm : string)
    (payload : list (string * pyval)) (o : outcome) : list request :=
  match o with
  | Answered resp =>
      if status_code resp =? 201 then []
      else if status_code resp =? 409 then [lookup_request token realm payload]
      else []
  | NoAnswer => []
  end.

(** State in which the lookup answer is examined: creation call and lookup
    both recorded, the "already exists" warning logged. *)
Definition after_lookup token realm payload (st : state) (w : World) : state :=
  {| world := w;
     calls := calls st ++ [create_request token realm payload;
                           lookup_request token realm payload];
     logs := logs st ++ [(WARNING, "User already exists: %s",
                          [dict_get payload "username"])] |}.

(** ** Further observations *)

(** The log records [create_user] adds to the ones already emitted. *)
Definition logged (u : UserCreate) (st : state) : list log_record :=
  skipn (length (logs st)) (logs (snd (create_user u st))).

Definition is_error_record (r : log_record) : bool :=
  match fst (fst r) with ERROR => true | _ => false end.

(** The reply body of an [HTTPException] with the given detail. *)
Definition detail (d : string) : pyval := PyDict [("detail", PyStr d)].

(** Whether character [c] occurs in [s]. *)
Fixpoint contains (c : ascii) (s : string) : bool :=
  match s with
  | EmptyString => false
  | String a s' => (Ascii.eqb a c || contains c s')%bool
  end.

(** Whether [s] ends with character [c]. *)
Fixpoint ends_with (c : ascii) (s : string) : bool :=
  match s with
  | EmptyString => false
  | String a s' =>
      match s' with
      | EmptyString => Ascii.eqb a c
      | String _ _ => ends_with c s'
      end
  end.

(** The string made of [n] copies of [c]. *)
Fixpoint copies (n : nat) (c : ascii) : string :=
  match n with
  | O => EmptyString
  | S n' => String c (copies n' c)
  end.

(** The value of [KEYCLOAK_BASE_URL] before its trailing slashes are
    stripped. *)
Definition raw_base_url (environ : string -> option string) : string :=
  getenv_default environ "KEYCLOAK_BASE_URL" "http://localhost:8080".

(** A token answer api.py cannot read a token from: the body does not
    decode, is not an object, or is an object without "access_token". *)
Definition lacks_access_token (resp : response) : Prop :=
  match json resp with
  | Some (PyDict d) => dict_lookup "access_token" d = None
  | _ => True
  end.

Definition is_array (j : pyval) : bool :=
  match j with PyList _ => true | _ => false end.

(** What [create_keycloak_user] makes of the answer to the lookup
    (api.py, lines 80-82). *)
Definition conflict_result (r : response) : result pyval :=
  if status_code r =? 200 then
    match json r with
    | None => Raise JSONDecodeError
    | Some j =>
        if truthy j then
          match py_getitem j (SubInt 0) with
          | Ok first => py_get first "id"
          | Raise e => Raise e
          end
        else Raise (HTTPException 409 "User already exists")
    end
  else Raise (HTTPException 409 "User already exists").

(** The state after one more call and, possibly, one more log record. *)
Definition advance (st : state) (r : request) (new_logs : list log_record) : state :=
  {| world := snd (serve (world st) r);
     calls := calls st ++ [r];
     logs := logs st ++ new_logs |}.

(** Exceptions other than [HTTPException]: they reach the client as a
    server error. *)
Definition unhandled (e : exn) : bool :=
  match e with HTTPException _ _ => false | _ => true end.

(** A decoded lookup body whose first element is an object. *)
Definition first_is_object (j : pyval) : bool :=
  match j with PyList (PyDict _ :: _) => true | _ => false end.

(** Whether a stage ended with an [HTTPException] of status 502. *)
Definition is_gateway_error {A : Type} (r : result A) : bool :=
  match r with
  | Raise (HTTPException c _) => c =? HTTP_502_BAD_GATEWAY
  | _ => false
  end.

(** ** Proof automation *)

Ltac unfold_monad :=
  unfold response_json, bind, ret, raise, lift, log in *.

Ltac leaf :=
  unfold advance; simpl; rewrite ?app_nil_r; reflexivity.

Ltac pick :=
  solve [repeat first [reflexivity | left; reflexivity | right]].

Ltac calls_norm :=
  repeat rewrite <- app_assoc; cbn [app]; rewrite ?app_nil_r.

(** ** How each function runs *)

Lemma send_run (r : request) (st : state) :
  send r st =
    (match fst (serve (world st) r) with
     | Answered resp => Ok resp
     | NoAnswer => Raise RequestException
     end,
     {| world := snd (serve (world st) r);
        calls := calls st ++ [r];
        logs := logs st |}).
Proof.
  unfold send. destruct (serve (world st) r) as [[resp|] w]; reflexivity.
Qed.

Lemma send_answered (r : request) (st : state) (resp : response) (w : World) :
  serve (world st) r = (Answered resp, w) ->
  send r st = (Ok resp, {| world := w; calls := calls st ++ [r]; logs := logs st |}).
Proof. intros H. unfold send. rewrite H. reflexivity. Qed.

Lemma send_calls (r : request) (st : state) :
  calls (snd (send r st)) = calls st ++ [r].
Proof. rewrite send_run. reflexivity. Qed.

(** [create_user] is the sequence of its three stages; a stage that raises
    ends the run in the state it reached. *)
Lemma create_user_run (u : UserCreate) (st : state) :
  create_user u st =
    match get_admin_token st with
    | (Raise e, st1) => (Raise e, st1)
    | (Ok token, st1) =>
        match create_keycloak_user token (KEYCLOAK_REALM cfg) (payload_of u) st1 with
        | (Raise e, st2) => (Raise e, st2)
        | (Ok user_id, st2) =>
            if opt_truthy (password u) then
              match set_user_password token (KEYCLOAK_REALM cfg) user_id (password u) false st2 with
              | (Raise e, st3) => (Raise e, st3)
              | (Ok _, st3) => (Ok (created user_id u), st3)
              end
            else (Ok (created user_id u), st2)
        end
    end.
Proof.
  unfold create_user, bind.
  destruct (get_admin_token st) as [[token|e] st1]; [|reflexivity].
  destruct (create_keycloak_user _ _ _ st1) as [[uid|e] st2]; [|reflexivity].
  destruct (opt_truthy (password u)); [|reflexivity].
  destruct (set_user_password _ _ _ _ _ st2) as [[[]|e] st3]; reflexivity.
Qed.

(** The token stage issues exactly one call, whatever its result. *)
Lemma get_admin_token_calls (st : state) :
  calls (snd (get_admin_token st)) = calls st ++ [token_request].
Proof.
  unfold get_admin_token, bind. rewrite send_run.
  destruct (fst (serve (world st) token_request)) as [resp|]; [|reflexivity].
  destruct (status_code resp =? 200); simpl; [|reflexivity].
  unfold_monad. destruct (json resp); reflexivity.
Qed.

Lemma get_admin_token_rejected (st : state) (resp : response) (w : World) :
  serve (world st) token_request = (Answered resp, w) ->
  status_code resp <> 200 ->
  get_admin_token st =
    (Raise (HTTPException 502 "Failed to obtain Keycloak admin token"),
     {| world := w;
        calls := calls st ++ [token_request];
        logs := logs st ++ [(ERROR, "Failed to obtain admin token: %s %s",
                             [PyInt (status_code resp); PyStr (text resp)])] |}).
Proof.
  intros Hs Hc. unfold get_admin_token, bind.
  rewrite (send_answered _ _ _ _ Hs).
  apply Z.eqb_neq in Hc. rewrite Hc. reflexivity.
Qed.

(** The provisioner issues the creation call and, only when that call is
    answered 409, the lookup. *)
Lemma create_keycloak_user_calls token realm payload (st : state) :
  calls (snd (create_keycloak_user token realm payload st)) =
    calls st ++ create_request token realm payload ::
      conflict_calls token realm payload
        (fst (serve (world st) (create_request token realm payload))).
Proof.
  unfold create_keycloak_user, bind. rewrite send_run.
  destruct (fst (serve (world st) (create_request token realm payload)))
    as [resp|]; cbn [conflict_calls]; [|reflexivity].
  destruct (status_code resp =? 201); [reflexivity|].
  destruct (status_code resp =? 409); [|reflexivity].
  unfold log at 1. cbv beta iota. rewrite send_run.
  cbn [world calls logs].
  match goal with |- context [fst (serve ?w ?r)] =>
    destruct (fst (serve w r)) as [r2|] end;
    [|simpl; rewrite <- app_assoc; reflexivity].
  unfold_monad.
  destruct (status_code r2 =? 200); [|simpl; rewrite <- app_assoc; reflexivity].
  destruct (json r2) as [j|]; [|simpl; rewrite <- app_assoc; reflexivity].
  cbv beta iota.
  destruct (truthy j); [|simpl; rewrite <- app_assoc; reflexivity].
  destruct (py_getitem j (SubInt 0)); simpl; rewrite <- app_assoc; reflexivity.
Qed.

Lemma create_keycloak_user_created token realm payload (st : state)
    (resp : response) (w : World) :
  serve (world st) (create_request token realm payload) = (Answered resp, w) ->
  status_code resp = 201 ->
  create_keycloak_user token realm payload st =
    (Ok (PyStr (user_id_of_location (headers_get (headers resp) "Location" EmptyString))),
     {| world := w;
        calls := calls st ++ [create_request token realm payload];
        logs := logs st ++
          [(INFO, "Created user %s (id=%s)",
            [dict_get payload "username";
             PyStr (user_id_of_location (headers_get (headers resp) "Location" EmptyString))])] |}).
Proof.
  intros Hs Hc. unfold create_keycloak_user, bind.
  rewrite (send_answered _ _ _ _ Hs), Hc. reflexivity.
Qed.

(** On a 409 the result is decided by the answer to the lookup alone. *)
Lemma create_keycloak_user_conflict token realm payload (st : state)
    (resp r : response) (w1 w2 : World) :
  serve (world st) (create_request token realm payload) = (Answered resp, w1) ->
  status_code resp = 409 ->
  serve w1 (lookup_request token realm payload) = (Answered r, w2) ->
  create_keycloak_user token realm payload st =
    (if status_code r =? 200 then
       match json r with
       | None => Raise JSONDecodeError
       | Some j =>
           if truthy j then
             match py_getitem j (SubInt 0) with
             | Ok first => py_get first "id"
             | Raise e => Raise e
             end
           else Raise (HTTPException 409 "User already exists")
       end
     else Raise (HTTPException 409 "User already exists"),
     after_lookup token realm payload st w2).
Proof.
  intros Hs Hc Hl. unfold create_keycloak_user, bind.
  rewrite (send_answered _ _ _ _ Hs), Hc. cbv beta iota.
  change (409 =? 201) with false. change (409 =? 409) with true. cbv beta iota.
  unfold log at 1. cbv beta iota.
  erewrite send_answered by exact Hl.
  unfold after_lookup. simpl. rewrite <- app_assoc. simpl.
  unfold_monad.
  destruct (status_code r =? 200); [|reflexivity].
  destruct (json r) as [j|]; [|reflexivity].
  cbv beta iota.
  destruct (truthy j); [|reflexivity].
  destruct (py_getitem j (SubInt 0)); reflexivity.
Qed.

(** The password setter issues one call when the password is non-empty and
    none otherwise. *)
Lemma set_user_password_calls token realm user_id p tmp (st : state) :
  calls (snd (set_user_password token realm user_id p tmp st)) =
    calls st ++
      (if opt_truthy p
       then [reset_password_request token realm user_id p tmp] else []).
Proof.
  unfold set_user_password.
  destruct (opt_truthy p); simpl; [|unfold ret; simpl; now rewrite app_nil_r].
  unfold bind. rewrite send_run.
  match goal with |- context [fst (serve ?w ?r)] =>
    destruct (fst (serve w r)) as [r2|] end; [|reflexivity].
  destruct (status_code r2 =? 204); reflexivity.
Qed.

(** The password setter's result, read off the answer to its call. *)
Lemma set_user_password_run token realm user_id p tmp (st : state) :
  opt_truthy p = true ->
  fst (set_user_password token realm user_id p tmp st) =
    match fst (serve (world st) (reset_password_request token realm user_id p tmp)) with
    | Answered resp =>
        if status_code resp =? 204 then Ok tt
        else Raise (HTTPException 502 "Failed to set user password")
    | NoAnswer => Raise RequestException
    end.
Proof.
  intros Hp. unfold set_user_password. rewrite Hp. simpl.
  unfold bind. rewrite send_run.
  match goal with |- context [fst (serve ?w ?r)] =>
    destruct (fst (serve w r)) as [r2|] end; [|reflexivity].
  destruct (status_code r2 =? 204); reflexivity.
Qed.

(** ** The calls of one request *)

Lemma skipn_length_app {A} (l t : list A) : skipn (length l) (l ++ t) = t.
Proof. induction l as [|a l IH]; simpl; auto. Qed.

(** The full list of calls one run of [create_user] issues, in order. *)
Lemma create_user_calls (u : UserCreate) (st : state) :
  calls (snd (create_user u st)) =
    calls st ++
    token_request ::
    match get_admin_token st with
    | (Raise _, _) => []
    | (Ok token, st1) =>
        let payload := payload_of u in
        let creation := create_request token (KEYCLOAK_REALM cfg) payload in
        creation ::
        conflict_calls token (KEYCLOAK_REALM cfg) payload
          (fst (serve (world st1) creation)) ++
        match create_keycloak_user token (KEYCLOAK_REALM cfg) payload st1 with
        | (Raise _, _) => []
        | (Ok user_id, _) =>
            if opt_truthy (password u)
            then [reset_password_request token (KEYCLOAK_REALM cfg) user_id
                    (password u) false]
            else []
        end
    end.
Proof.
  rewrite create_user_run. cbv zeta.
  pose proof (get_admin_token_calls st) as H1.
  destruct (get_admin_token st) as [[token|e] st1]; simpl in H1; [|exact H1].
  pose proof (create_keycloak_user_calls token (KEYCLOAK_REALM cfg) (payload_of u) st1) as H2.
  destruct (create_keycloak_user token (KEYCLOAK_REALM cfg) (payload_of u) st1)
    as [[uid|e] st2]; simpl in H2; cbv zeta.
  - pose proof (set_user_password_calls token (KEYCLOAK_REALM cfg) uid (password u) false st2) as H3.
    destruct (opt_truthy (password u)).
    + destruct (set_user_password token (KEYCLOAK_REALM cfg) uid (password u) false st2)
        as [[[]|e] st3]; simpl in H3 |- *; rewrite H3, H2, H1;
        calls_norm; reflexivity.
    + simpl. rewrite H2, H1. calls_norm. reflexivity.
  - simpl. rewrite H2, H1. calls_norm. reflexivity.
Qed.

(** The full list of calls one run of [create_user] issues, in order. *)
Lemma issued_run (u : UserCreate) (st : state) :
  issued u st =
    token_request ::
    match get_admin_token st with
    | (Raise _, _) => []
    | (Ok token, st1) =>
        let payload := payload_of u in
        let creation := create_request token (KEYCLOAK_REALM cfg) payload in
        creation ::
        conflict_calls token (KEYCLOAK_REALM cfg) payload
          (fst (serve (world st1) creation)) ++
        match create_keycloak_user token (KEYCLOAK_REALM cfg) payload st1 with
        | (Raise _, _) => []
        | (Ok user_id, _) =>
            if opt_truthy (password u)
            then [reset_password_request token (KEYCLOAK_REALM cfg) user_id
                    (password u) false]
            else []
        end
    end.
Proof.
  unfold issued. rewrite create_user_calls. apply skipn_length_app.
Qed.

Lemma issued_spec (u : UserCreate) (st : state) :
  calls (snd (create_user u st)) = calls st ++ issued u st.
Proof. rewrite issued_run. apply create_user_calls. Qed.

(** Once the token and the user id are obtained, the result of the run is
    decided by the password stage alone. *)
Lemma create_user_after_provision (u : UserCreate) (st : state)
    (token : pyval) (st1 : state) (uid : pyval) (st2 : state) :
  get_admin_token st = (Ok token, st1) ->
  create_keycloak_user token (KEYCLOAK_REALM cfg) (payload_of u) st1 = (Ok uid, st2) ->
  fst (create_user u st) =
    if opt_truthy (password u) then
      match fst (serve (world st2)
                   (reset_password_request token (KEYCLOAK_REALM cfg) uid
                      (password u) false)) with
      | Answered ack =>
          if status_code ack =? 204 then Ok (created uid u)
          else Raise (HTTPException 502 "Failed to set user password")
      | NoAnswer => Raise RequestException
      end
    else Ok (created uid u).
Proof.
  intros H1 H2. rewrite create_user_run, H1, H2.
  destruct (opt_truthy (password u)) eqn:Hp; [|reflexivity].
  pose proof (set_user_password_run token (KEYCLOAK_REALM cfg) uid
                (password u) false st2 Hp) as H3.
  destruct (set_user_password token (KEYCLOAK_REALM cfg) uid (password u) false st2)
    as [[[]|e] st3]; simpl in H3 |- *;
    destruct (fst (serve _ _)) as [ack|]; try discriminate;
    try destruct (status_code ack =? 204); try discriminate;
    try reflexivity; inversion H3; reflexivity.
Qed.

Lemma filter_put_conflict_calls token realm payload (o : outcome) :
  filter is_put (conflict_calls token realm payload o) = [].
Proof.
  destruct o as [resp|]; simpl; [|reflexivity].
  destruct (status_code resp =? 201); [reflexivity|].
  destruct (status_code resp =? 409); reflexivity.
Qed.

Lemma filter_other_conflict_calls token realm payload (o : outcome) :
  filter (fun r => negb (is_put r)) (conflict_calls token realm payload o) =
  conflict_calls token realm payload o.
Proof.
  destruct o as [resp|]; simpl; [|reflexivity].
  destruct (status_code resp =? 201); [reflexivity|].
  destruct (status_code resp =? 409); reflexivity.
Qed.

Lemma creation_payloads_app (l t : list request) :
  creation_payloads (l ++ t) = creation_payloads l ++ creation_payloads t.
Proof.
  induction l as [|r l IH]; simpl; [reflexivity|].
  destruct (req_method r); auto.
  destruct (req_body r) as [| |v]; auto.
  destruct v; auto. simpl. now rewrite IH.
Qed.

Lemma creation_payloads_conflict_calls token realm payload (o : outcome) :
  creation_payloads (conflict_calls token realm payload o) = [].
Proof.
  destruct o as [resp|]; simpl; [|reflexivity].
  destruct (status_code resp =? 201); [reflexivity|].
  destruct (status_code resp =? 409); reflexivity.
Qed.

(** The PUT calls of a run: the single reset-password call of the password
    stage, present exactly when that stage is reached with a non-empty
    password. *)
Lemma reset_calls_run (u : UserCreate) (st : state) :
  filter is_put (issued u st) =
    match get_admin_token st with
    | (Raise _, _) => []
    | (Ok token, st1) =>
        match create_keycloak_user token (KEYCLOAK_REALM cfg) (payload_of u) st1 with
        | (Raise _, _) => []
        | (Ok user_id, _) =>
            if opt_truthy (password u)
            then [reset_password_request token (KEYCLOAK_REALM cfg) user_id
                    (password u) false]
            else []
        end
    end.
Proof.
  rewrite issued_run. cbn [filter is_put method_eqb req_method token_request].
  destruct (get_admin_token st) as [[token|e] st1]; [|reflexivity].
  cbv zeta. cbn [filter is_put method_eqb req_method create_request].
  rewrite filter_app, filter_put_conflict_calls. cbn [app].
  destruct (create_keycloak_user _ _ _ st1) as [[uid|e] st2]; [|reflexivity].
  destruct (opt_truthy (password u)); reflexivity.
Qed.

(** The creation call is issued once the token is obtained, and carries
    the filtered payload. *)
Lemma creation_payloads_run (u : UserCreate) (st : state) :
  creation_payloads (issued u st) =
    if is_ok (fst (get_admin_token st)) then [payload_of u] else [].
Proof.
  rewrite issued_run.
  destruct (get_admin_token st) as [[token|e] st1]; [|reflexivity].
  cbv zeta.
  change (creation_payloads (token_request :: ?l)) with (creation_payloads l).
  cbn [creation_payloads req_method req_body create_request fst is_ok].
  rewrite creation_payloads_app, creation_payloads_conflict_calls. cbn [app].
  destruct (create_keycloak_user _ _ _ st1) as [[uid|e] st2]; [|reflexivity].
  destruct (opt_truthy (password u)); reflexivity.
Qed.

(** ** Token stage *)

(** C4: when the token endpoint answers with a status other than 200, the
    run ends with the 502 "Failed to obtain Keycloak admin token" error and
    the token exchange is the only call issued: no creation call is made. *)
Theorem token_rejected_no_creation_call (u : UserCreate) (st : state)
    (resp : response) (w : World) :
  serve (world st) token_request = (Answered resp, w) ->
  status_code resp <> 200 ->
  fst (create_user u st) =
    Raise (HTTPException 502 "Failed to obtain Keycloak admin token") /\
  fst (fst (post_users u st)) = 502 /\
  issued u st = [token_request] /\
  creation_payloads (issued u st) = [].
Proof.
  intros Hs Hc.
  pose proof (get_admin_token_rejected st resp w Hs Hc) as Ht.
  assert (Hi : issued u st = [token_request])
    by (rewrite issued_run, Ht; reflexivity).
  repeat split.
  - rewrite create_user_run, Ht. reflexivity.
  - unfold post_users. rewrite create_user_run, Ht. reflexivity.
  - exact Hi.
  - rewrite Hi. reflexivity.
Qed.

(** ** Provisioning stage *)

Lemma py_getitem_first (x : pyval) (rest : list pyval) :
  py_getitem (PyList (x :: rest)) (SubInt 0) = Ok x.
Proof. reflexivity. Qed.

Lemma post_users_ok (u : UserCreate) (st : state) (b : pyval) :
  fst (create_user u st) = Ok b -> fst (post_users u st) = render 201 b.
Proof.
  unfold post_users. destruct (create_user u st) as [[b'|e] st']; simpl;
    intros H; [inversion H; reflexivity | discriminate].
Qed.


Lemma post_users_http_error (u : UserCreate) (st : state) (c : Z) (d : string) :
  fst (create_user u st) = Raise (HTTPException c d) ->
  fst (post_users u st) = (c, PyDict [("detail", PyStr d)]).
Proof.
  unfold post_users. destruct (create_user u st) as [[b'|e] st']; simpl;
    intros H; [discriminate | inversion H; reflexivity].
Qed.

(** A response with no header of that name yields the default. *)
Lemma headers_get_absent (h : list (string * string)) (name default : string) :
  (forall k v, In (k, v) h -> String.eqb (lower k) (lower name) = false) ->
  headers_get h name default = default.
Proof.
  induction h as [|[k v] h IH]; simpl; intros Hh; [reflexivity|].
  rewrite (Hh k v (or_introl eq_refl)). apply IH.
  intros k' v' Hin. apply (Hh k' v'). right. exact Hin.
Qed.


(** The part of conflict handling that does raise the conflict error: a
    lookup answered with a status other than 200, or with a 200 whose
    decoded body is falsy (an empty array in particular). *)
Lemma conflict_lookup_inconclusive (u : UserCreate) (st : state)
    (token : pyval) (st1 : state) (resp r : response) (w1 w2 : World) :
  get_admin_token st = (Ok token, st1) ->
  serve (world st1) (create_request token (KEYCLOAK_REALM cfg) (payload_of u))
    = (Answered resp, w1) ->
  status_code resp = 409 ->
  serve w1 (lookup_request token (KEYCLOAK_REALM cfg) (payload_of u))
    = (Answered r, w2) ->
  (status_code r <> 200 \/ exists j, json r = Some j /\ truthy j = false) ->
  fst (create_user u st) = Raise (HTTPException 409 "User already exists") /\
  fst (post_users u st) = (409, PyDict [("detail", PyStr "User already exists")]).
Proof.
  intros Ht Hc H409 Hl Hinc.
  pose proof (create_keycloak_user_conflict _ _ _ _ _ _ _ _ Hc H409 Hl) as Hk.
  assert (Hu : fst (create_user u st) = Raise (HTTPException 409 "User already exists")).
  { rewrite create_user_run, Ht, Hk.
    destruct Hinc as [Hn | [j [Hj Hf]]].
    - apply Z.eqb_neq in Hn. rewrite Hn. reflexivity.
    - rewrite Hj, Hf. destruct (status_code r =? 200); reflexivity. }
  split; [exact Hu | apply post_users_http_error, Hu].
Qed.

(** C3: a 201 answer without a [Location] header, or with an empty one,
    makes the provisioner return the empty string as the user id; the run
    then goes on to the password stage with that id, and every success
    response it produces has id equal to the empty string. *)
Theorem created_without_location_gives_empty_id (u : UserCreate) (st : state)
    (token : pyval) (st1 : state) (resp : response) (w1 : World) :
  get_admin_token st = (Ok token, st1) ->
  serve (world st1) (create_request token (KEYCLOAK_REALM cfg) (payload_of u))
    = (Answered resp, w1) ->
  status_code resp = 201 ->
  headers_get (headers resp) "Location" EmptyString = EmptyString ->
  fst (create_keycloak_user token (KEYCLOAK_REALM cfg) (payload_of u) st1)
    = Ok (PyStr EmptyString) /\
  fst (create_user u st) =
    (if opt_truthy (password u) then
       match fst (serve w1 (reset_password_request token (KEYCLOAK_REALM cfg)
                              (PyStr EmptyString) (password u) false)) with
       | Answered ack =>
           if status_code ack =? 204 then Ok (created (PyStr EmptyString) u)
           else Raise (HTTPException 502 "Failed to set user password")
       | NoAnswer => Raise RequestException
       end
     else Ok (created (PyStr EmptyString) u)) /\
  (forall b, fst (create_user u st) = Ok b ->
             b = PyDict [("id", PyStr EmptyString); ("username", PyStr (username u))] /\
             fst (post_users u st) = (201, b)).
Proof.
  intros Ht Hc H201 Hloc.
  pose proof (create_keycloak_user_created _ _ _ _ _ _ Hc H201) as Hk.
  rewrite Hloc in Hk. change (user_id_of_location EmptyString) with EmptyString in Hk.
  pose proof (create_user_after_provision _ _ _ _ _ _ Ht Hk) as Hu.
  cbn [world] in Hu.
  split; [rewrite Hk; reflexivity|]. split; [exact Hu|].
  intros b Hb.
  assert (Hbody : b = PyDict [("id", PyStr EmptyString); ("username", PyStr (username u))]).
  { rewrite Hu in Hb. destruct (opt_truthy (password u)).
    - destruct (fst (serve _ _)) as [ack|]; [|discriminate].
      destruct (status_code ack =? 204); [|discriminate].
      inversion Hb. reflexivity.
    - inversion Hb. reflexivity. }
  split; [exact Hbody|]. rewrite (post_users_ok _ _ _ Hb), Hbody. reflexivity.
Qed.

(** ** Payload construction *)

Lemma payload_of_with_password (u : UserCreate) (p : option string) :
  payload_of (with_password u p) = payload_of u.
Proof. reflexivity. Qed.

Lemma payload_keys_incl (u : UserCreate) :
  incl (dict_keys (payload_of u)) payload_fields.
Proof.
  unfold payload_of, raw_payload, drop_None, payload_fields, dict_keys.
  destruct (email u), (firstName u), (lastName u); simpl;
    intros k Hk; simpl in *; tauto.
Qed.

Lemma payload_has_no_None (u : UserCreate) (k : string) :
  dict_lookup k (payload_of u) <> Some PyNone.
Proof.
  unfold payload_of, raw_payload, drop_None.
  destruct (email u), (firstName u), (lastName u); simpl;
    repeat match goal with
           | |- context [String.eqb k ?s] => destruct (String.eqb k s)
           end; discriminate.
Qed.

(** C5: the creation call, issued once the token is obtained, carries the
    filtered payload, and that payload has no "email" key when the request
    omits the email, no "firstName" key when it omits the first name and no
    "lastName" key when it omits the last name; no key is sent with a null
    value. *)
Theorem omitted_optional_fields_not_sent (u : UserCreate) (st : state) :
  creation_payloads (issued u st) =
    (if is_ok (fst (get_admin_token st)) then [payload_of u] else []) /\
  (email u = None -> ~ In "email" (dict_keys (payload_of u))) /\
  (firstName u = None -> ~ In "firstName" (dict_keys (payload_of u))) /\
  (lastName u = None -> ~ In "lastName" (dict_keys (payload_of u))) /\
  (forall k, dict_lookup k (payload_of u) <> Some PyNone).
Proof.
  split; [apply creation_payloads_run|].
  unfold payload_of, raw_payload, drop_None, dict_keys.
  repeat split; try (intros k; apply payload_has_no_None);
    intros H; rewrite H;
    destruct (email u), (firstName u), (lastName u); simpl;
    intuition discriminate.
Qed.

(** C10: the payload of the creation call never has a "password" key: its
    keys are among username, email, firstName, lastName, enabled and
    emailVerified, it is the same whatever the password, and apart from the
    reset-password call the run issues exactly the calls of the same
    request without a password. *)
Theorem creation_payload_never_has_password (u : UserCreate) (st : state) :
  creation_payloads (issued u st) =
    (if is_ok (fst (get_admin_token st)) then [payload_of u] else []) /\
  ~ In "password" (dict_keys (payload_of u)) /\
  incl (dict_keys (payload_of u)) payload_fields /\
  payload_of u = payload_of (with_password u None) /\
  filter (fun r => negb (is_put r)) (issued u st) =
    issued (with_password u None) st.
Proof.
  split; [apply creation_payloads_run|].
  split.
  { intros Hin. apply payload_keys_incl in Hin. unfold payload_fields in Hin.
    simpl in Hin. intuition discriminate. }
  split; [apply payload_keys_incl|].
  split; [reflexivity|].
  rewrite !issued_run. rewrite payload_of_with_password.
  cbn [filter is_put method_eqb req_method token_request negb].
  destruct (get_admin_token st) as [[token|e] st1]; [|reflexivity].
  cbv zeta. cbn [filter is_put method_eqb req_method create_request negb].
  rewrite filter_app, filter_other_conflict_calls.
  do 3 f_equal.
  destruct (create_keycloak_user _ _ _ st1) as [[uid|e] st2]; [|reflexivity].
  cbn [password with_password opt_truthy].
  destruct (opt_truthy (password u)); reflexivity.
Qed.

(** ** Response and password stage *)

(** A successful run went through the token and provisioning stages, and
    its body pairs the provisioned id with the username. *)
Lemma create_user_ok_inv (u : UserCreate) (st : state) (b : pyval) :
  fst (create_user u st) = Ok b ->
  exists token st1 uid st2,
    get_admin_token st = (Ok token, st1) /\
    create_keycloak_user token (KEYCLOAK_REALM cfg) (payload_of u) st1 = (Ok uid, st2) /\
    b = created uid u.
Proof.
  rewrite create_user_run.
  destruct (get_admin_token st) as [[token|e] st1]; [|discriminate].
  destruct (create_keycloak_user _ _ _ st1) as [[uid|e] st2] eqn:Hk; [|discriminate].
  intros H. exists token, st1, uid, st2.
  split; [reflexivity|]. split; [exact Hk|].
  destruct (opt_truthy (password u)).
  - destruct (set_user_password _ _ _ _ _ st2) as [[[]|e] st3];
      simpl in H; [inversion H; reflexivity | discriminate].
  - inversion H. reflexivity.
Qed.

(** C6: a successful response has exactly the keys id and username, the
    id being the provisioned one; two requests that differ only in the
    password, run against the same identity service, and both successful,
    get the same response body and the same reply. *)
Theorem response_body_independent_of_password (u : UserCreate)
    (p1 p2 : option string) (st : state) (b1 b2 : pyval) :
  fst (create_user (with_password u p1) st) = Ok b1 ->
  fst (create_user (with_password u p2) st) = Ok b2 ->
  body_keys b1 = ["id"; "username"] /\
  (exists id, b1 = PyDict [("id", id); ("username", PyStr (username u))]) /\
  b2 = b1 /\
  fst (post_users (with_password u p2) st) = fst (post_users (with_password u p1) st).
Proof.
  intros H1 H2.
  assert (Hreply : b2 = b1 ->
            fst (post_users (with_password u p2) st) =
            fst (post_users (with_password u p1) st)).
  { intros ->. rewrite (post_users_ok _ _ _ H1), (post_users_ok _ _ _ H2).
    reflexivity. }
  revert Hreply.
  apply create_user_ok_inv in H1. apply create_user_ok_inv in H2.
  destruct H1 as (t1 & s1 & id1 & s1' & Ht1 & Hk1 & ->).
  destruct H2 as (t2 & s2 & id2 & s2' & Ht2 & Hk2 & ->).
  rewrite Ht1 in Ht2. inversion Ht2; subst t2 s2.
  rewrite payload_of_with_password in Hk1, Hk2.
  rewrite Hk1 in Hk2. inversion Hk2; subst id2 s2'.
  intros Hreply.
  split; [reflexivity|]. split; [exists id1; reflexivity|].
  split; [reflexivity | apply Hreply; reflexivity].
Qed.

(** C7: a request without a password issues no reset-password call; its
    calls are the token exchange, then the creation call if the token was
    obtained, then the lookup if the creation call was answered 409. *)
Theorem no_password_no_reset_call (u : UserCreate) (st : state) :
  password u = None ->
  filter is_put (issued u st) = [] /\
  issued u st =
    token_request ::
    match get_admin_token st with
    | (Raise _, _) => []
    | (Ok token, st1) =>
        let creation := create_request token (KEYCLOAK_REALM cfg) (payload_of u) in
        creation ::
        match fst (serve (world st1) creation) with
        | Answered resp =>
            if status_code resp =? 409
            then [lookup_request token (KEYCLOAK_REALM cfg) (payload_of u)]
            else []
        | NoAnswer => []
        end
    end.
Proof.
  intros Hp. split.
  - rewrite reset_calls_run, Hp.
    destruct (get_admin_token st) as [[token|e] st1]; [|reflexivity].
    destruct (create_keycloak_user _ _ _ st1) as [[uid|e] st2]; reflexivity.
  - rewrite issued_run, Hp.
    destruct (get_admin_token st) as [[token|e] st1]; [|reflexivity].
    cbv zeta. do 2 f_equal.
    assert (Hnil : forall (x : result pyval * state),
               match x with
               | (Ok _, _) => if opt_truthy None then @nil request else []
               | (Raise _, _) => []
               end = []) by (intros [[?|?] ?]; reflexivity).
    etransitivity; [apply f_equal; apply Hnil|]. rewrite app_nil_r.
    unfold conflict_calls.
    destruct (fst (serve _ _)) as [resp|]; [|reflexivity].
    destruct (status_code resp =? 201) eqn:E; [|reflexivity].
    apply Z.eqb_eq in E. rewrite E. reflexivity.
Qed.

(** C8: when the run reaches the password stage with a non-empty password,
    its only PUT call is the reset-password call, whose body carries
    temporary = False; the run succeeds exactly when that call is answered
    204, and any other answered status ends it with the 502 "Failed to set
    user password" error. *)
Theorem password_set_call_outcome (u : UserCreate) (st : state)
    (token : pyval) (st1 : state) (uid : pyval) (st2 : state) :
  get_admin_token st = (Ok token, st1) ->
  create_keycloak_user token (KEYCLOAK_REALM cfg) (payload_of u) st1 = (Ok uid, st2) ->
  opt_truthy (password u) = true ->
  let call :=
    reset_password_request token (KEYCLOAK_REALM cfg) uid (password u) false in
  filter is_put (issued u st) = [call] /\
  req_body call = Json (PyDict [("type", PyStr "password");
                                ("value", of_opt (password u));
                                ("temporary", PyBool false)]) /\
  (fst (create_user u st) = Ok (created uid u) <->
   exists ack, fst (serve (world st2) call) = Answered ack /\ status_code ack = 204) /\
  (forall ack, fst (serve (world st2) call) = Answered ack ->
               status_code ack <> 204 ->
               fst (create_user u st) =
                 Raise (HTTPException 502 "Failed to set user password") /\
               fst (fst (post_users u st)) = 502).
Proof.
  intros Ht Hk Hp call.
  pose proof (create_user_after_provision _ _ _ _ _ _ Ht Hk) as Hu.
  rewrite Hp in Hu. fold call in Hu.
  split; [rewrite reset_calls_run, Ht, Hk, Hp; reflexivity|].
  split; [reflexivity|].
  split.
  - rewrite Hu. split.
    + destruct (fst (serve (world st2) call)) as [ack|]; [|discriminate].
      destruct (status_code ack =? 204) eqn:E; [|discriminate].
      intros _. exists ack. split; [reflexivity | now apply Z.eqb_eq].
    + intros [ack [Ha H204]]. rewrite Ha, H204. reflexivity.
  - intros ack Ha Hn.
    assert (He : fst (create_user u st) =
                 Raise (HTTPException 502 "Failed to set user password")).
    { rewrite Hu, Ha. apply Z.eqb_neq in Hn. rewrite Hn. reflexivity. }
    split; [exact He|]. rewrite (post_users_http_error _ _ _ _ He). reflexivity.
Qed.

(** C9: a request whose password is the empty string runs exactly like the
    same request without a password: same result, same final state, no
    reset-password call (the password setter itself returns at once on an
    empty password), and a success whenever the token and provisioning
    stages succeed. *)
Theorem blank_password_is_no_password (u : UserCreate) (st : state) :
  create_user (with_password u (Some EmptyString)) st =
    create_user (with_password u None) st /\
  filter is_put (issued (with_password u (Some EmptyString)) st) = [] /\
  (forall token realm uid tmp s,
      set_user_password token realm uid (Some EmptyString) tmp s = (Ok tt, s)) /\
  fst (create_user (with_password u (Some EmptyString)) st) =
    match get_admin_token st with
    | (Raise e, _) => Raise e
    | (Ok token, st1) =>
        match create_keycloak_user token (KEYCLOAK_REALM cfg) (payload_of u) st1 with
        | (Raise e, _) => Raise e
        | (Ok uid, _) => Ok (created uid u)
        end
    end.
Proof.
  split; [rewrite !create_user_run; reflexivity|].
  split.
  { rewrite reset_calls_run, payload_of_with_password.
    destruct (get_admin_token st) as [[token|e] st1]; [|reflexivity].
    destruct (create_keycloak_user _ _ _ st1) as [[uid|e] st2]; reflexivity. }
  split; [reflexivity|].
  rewrite create_user_run, payload_of_with_password.
  destruct (get_admin_token st) as [[token|e] st1]; [|reflexivity].
  destruct (create_keycloak_user _ _ _ st1) as [[uid|e] st2]; reflexivity.
Qed.

(** ** Strings: trailing slashes and path segments *)

Lemma rstrip_without (c : ascii) (s : string) :
  contains c s = false -> rstrip c s = s.
Proof.
  induction s as [|a s IH]; simpl; [reflexivity|].
  intros H. apply Bool.orb_false_iff in H. destruct H as [Ha Hs].
  rewrite (IH Hs), Ha. destruct s; reflexivity.
Qed.

Lemma rstrip_copies (c : ascii) (n : nat) : rstrip c (copies n c) = EmptyString.
Proof.
  induction n as [|n IH]; simpl; [reflexivity|].
  rewrite IH, Ascii.eqb_refl. reflexivity.
Qed.

Lemma rstrip_app_copies (c : ascii) (s : string) (n : nat) :
  rstrip c (s ++ copies n c)%string = rstrip c s.
Proof.
  induction s as [|a s IH]; simpl; [apply rstrip_copies|].
  rewrite IH. reflexivity.
Qed.

Lemma rstrip_app_without (c : ascii) (p t : string) :
  contains c t = false -> t <> EmptyString ->
  rstrip c (p ++ t)%string = (p ++ t)%string.
Proof.
  intros Hc Hne. induction p as [|a p IH]; simpl.
  - apply rstrip_without, Hc.
  - rewrite IH. destruct (p ++ t)%string eqn:E; [|reflexivity].
    destruct p; simpl in E; [contradiction | discriminate].
Qed.

Lemma rstrip_not_ends_with (c : ascii) (s : string) :
  ends_with c (rstrip c s) = false.
Proof.
  induction s as [|a s IH]; simpl; [reflexivity|].
  destruct (rstrip c s) as [|b t] eqn:E.
  - destruct (Ascii.eqb a c) eqn:Ea; simpl; [reflexivity | exact Ea].
  - exact IH.
Qed.

Lemma rstrip_removes_copies (c : ascii) (s : string) :
  exists n, s = (rstrip c s ++ copies n c)%string.
Proof.
  induction s as [|a s [n IH]]; simpl.
  - exists O. reflexivity.
  - destruct (rstrip c s) as [|b t] eqn:E.
    + destruct (Ascii.eqb_spec a c) as [->|Hne].
      * exists (S n). simpl in IH |- *. now rewrite <- IH.
      * exists n. simpl in IH |- *. now rewrite <- IH.
    + exists n. change (String a s = String a (String b t ++ copies n c)%string).
      now rewrite <- IH.
Qed.

Lemma split_without (c : ascii) (s : string) :
  contains c s = false -> split c s = [s].
Proof.
  induction s as [|a s IH]; simpl; [reflexivity|].
  intros H. apply Bool.orb_false_iff in H. destruct H as [Ha Hs].
  rewrite Ha, (IH Hs). reflexivity.
Qed.

Lemma split_last_segment (c : ascii) (p t : string) :
  contains c t = false ->
  exists h l, split c (p ++ String c t)%string = h :: l ++ [t].
Proof.
  intros Hc. induction p as [|a p (h & l & IH)]; simpl.
  - rewrite Ascii.eqb_refl, (split_without _ _ Hc).
    exists EmptyString, []. reflexivity.
  - rewrite IH. destruct (Ascii.eqb a c).
    + exists EmptyString, (h :: l). reflexivity.
    + exists (String a h), l. reflexivity.
Qed.

Lemma split_pieces_without (c : ascii) (s : string) :
  Forall (fun x => contains c x = false) (split c s).
Proof.
  induction s as [|a s IH]; simpl.
  - constructor; [reflexivity | constructor].
  - destruct (Ascii.eqb a c) eqn:Ea.
    + constructor; [reflexivity | exact IH].
    + destruct (split c s) as [|h l]; inversion IH; subst;
        constructor; simpl; try rewrite Ea; auto.
Qed.

Lemma last_Forall {A} (P : A -> Prop) (l : list A) (d : A) :
  P d -> Forall P l -> P (last l d).
Proof.
  intros Hd H. induction H as [|x l Hx Hl IH]; simpl; [exact Hd|].
  destruct l; [exact Hx | exact IH].
Qed.

Lemma string_app_assoc (a b c : string) :
  ((a ++ b) ++ c)%string = (a ++ b ++ c)%string.
Proof. induction a as [|x a IH]; simpl; [reflexivity | now rewrite IH]. Qed.

(** X1: the user id read from a [Location] value is its last path segment:
    for a non-empty identifier without a slash, placed after a slash and
    followed by any number of trailing slashes, the identifier itself. *)
Theorem user_id_is_last_path_segment (prefix id : string) (n : nat) :
  id <> EmptyString ->
  contains "/" id = false ->
  user_id_of_location (prefix ++ String "/" id ++ copies n "/")%string = id.
Proof.
  intros Hne Hc. unfold user_id_of_location.
  replace (str_truthy (prefix ++ String "/" id ++ copies n "/")%string) with true
    by (destruct prefix; reflexivity).
  rewrite <- string_app_assoc, rstrip_app_copies.
  change (String "/" id) with (String "/" EmptyString ++ id)%string.
  rewrite <- string_app_assoc, (rstrip_app_without _ _ _ Hc Hne), string_app_assoc.
  change (String "/" EmptyString ++ id)%string with (String "/" id).
  destruct (split_last_segment "/" prefix id Hc) as (h & l & ->).
  change (h :: l ++ [id]) with ((h :: l) ++ [id]). apply last_last.
Qed.

(** X2: whatever the [Location] value, the user id read from it contains
    no slash. *)
Theorem user_id_has_no_slash (location : string) :
  contains "/" (user_id_of_location location) = false.
Proof.
  unfold user_id_of_location. destruct (str_truthy location); [|reflexivity].
  apply (last_Forall (fun x => contains "/" x = false)); [reflexivity|].
  apply split_pieces_without.
Qed.

(** ** Configuration *)

(** X3: the configured base URL is the [KEYCLOAK_BASE_URL] value (or its
    default) with all trailing slashes removed and nothing else changed: it
    never ends with a slash, and the original value is the base URL
    followed by slashes only. *)
Theorem base_url_has_no_trailing_slash (environ : string -> option string) :
  ends_with "/" (KEYCLOAK_BASE (load_config environ)) = false /\
  exists n,
    raw_base_url environ =
      (KEYCLOAK_BASE (load_config environ) ++ copies n "/")%string.
Proof.
  split; [apply rstrip_not_ends_with | apply rstrip_removes_copies].
Qed.

(** X4: the startup warning is emitted exactly when the admin username or
    the admin password is unset or empty; otherwise nothing is logged at
    startup. *)
Theorem startup_warning_iff_credentials_missing (c : config) :
  (startup_logs c = [] <->
   exists user pass,
     KEYCLOAK_ADMIN_USER c = Some user /\ KEYCLOAK_ADMIN_PASS c = Some pass /\
     user <> EmptyString /\ pass <> EmptyString) /\
  (startup_logs c <> [] ->
   exists msg, startup_logs c = [(WARNING, msg, [])]).
Proof.
  unfold startup_logs.
  destruct (KEYCLOAK_ADMIN_USER c) as [[|a user]|];
    destruct (KEYCLOAK_ADMIN_PASS c) as [[|b pass]|]; simpl;
    (split; [split; [try discriminate; intros _; eexists _, _; repeat split; discriminate
                    | intros (x & y & Hx & Hy & Hnx & Hny);
                      try discriminate; try reflexivity;
                      inversion Hx; inversion Hy; subst; congruence]
            | intros H; try (exfalso; apply H; reflexivity); eexists; reflexivity]).
Qed.

(** ** Payload contents *)

(** X5: the creation payload always carries the username, [enabled] and
    [emailVerified] with the request's values; an optional field that is
    present is sent with its value; no key occurs twice; and the lookup
    that follows a 409 searches for the request's username. *)
Theorem payload_carries_present_fields (u : UserCreate) :
  dict_lookup "username" (payload_of u) = Some (PyStr (username u)) /\
  dict_lookup "enabled" (payload_of u) = Some (PyBool (enabled u)) /\
  dict_lookup "emailVerified" (payload_of u) = Some (PyBool (emailVerified u)) /\
  (forall e, email u = Some e ->
             dict_lookup "email" (payload_of u) = Some (PyStr e)) /\
  (forall f, firstName u = Some f ->
             dict_lookup "firstName" (payload_of u) = Some (PyStr f)) /\
  (forall l, lastName u = Some l ->
             dict_lookup "lastName" (payload_of u) = Some (PyStr l)) /\
  NoDup (dict_keys (payload_of u)) /\
  (forall token realm,
      req_params (lookup_request token realm (payload_of u)) =
        [("username", PyStr (username u))]).
Proof.
  unfold payload_of, raw_payload, drop_None, lookup_request, dict_get.
  destruct (email u), (firstName u), (lastName u); simpl;
    repeat split; try (intros ? H; inversion H; reflexivity);
    repeat constructor; simpl; intuition discriminate.
Qed.

(** ** Complete runs of the three stages *)

Lemma get_admin_token_full (st : state) :
  get_admin_token st =
    match fst (serve (world st) token_request) with
    | NoAnswer => (Raise RequestException, advance st token_request [])
    | Answered resp =>
        if status_code resp =? 200 then
          (match json resp with
           | Some j => py_getitem j (SubStr "access_token")
           | None => Raise JSONDecodeError
           end, advance st token_request [])
        else
          (Raise (HTTPException 502 "Failed to obtain Keycloak admin token"),
           advance st token_request
             [(ERROR, "Failed to obtain admin token: %s %s",
               [PyInt (status_code resp); PyStr (text resp)])])
    end.
Proof.
  unfold get_admin_token, bind. rewrite send_run.
  destruct (fst (serve (world st) token_request)) as [resp|]; [|leaf].
  destruct (status_code resp =? 200); simpl; [|leaf].
  unfold_monad. destruct (json resp); leaf.
Qed.

Lemma create_keycloak_user_full token realm payload (st : state) :
  create_keycloak_user token realm payload st =
    let creation := create_request token realm payload in
    let lookup := lookup_request token realm payload in
    match fst (serve (world st) creation) with
    | NoAnswer => (Raise RequestException, advance st creation [])
    | Answered resp =>
        if status_code resp =? 201 then
          let uid := user_id_of_location
                       (headers_get (headers resp) "Location" EmptyString) in
          (Ok (PyStr uid),
           advance st creation
             [(INFO, "Created user %s (id=%s)",
               [dict_get payload "username"; PyStr uid])])
        else if status_code resp =? 409 then
          (match fst (serve (snd (serve (world st) creation)) lookup) with
           | NoAnswer => Raise RequestException
           | Answered r => conflict_result r
           end,
           advance
             (advance st creation
                [(WARNING, "User already exists: %s", [dict_get payload "username"])])
             lookup [])
        else
          (Raise (HTTPException 502 "Failed to create user in Keycloak"),
           advance st creation
             [(ERROR, "Error creating user: %s %s",
               [PyInt (status_code resp); PyStr (text resp)])])
    end.
Proof.
  cbv zeta. unfold create_keycloak_user, bind. rewrite send_run.
  destruct (fst (serve (world st) (create_request token realm payload)))
    as [resp|]; [|leaf].
  destruct (status_code resp =? 201); [leaf|].
  destruct (status_code resp =? 409); [|leaf].
  unfold log at 1. cbv beta iota. rewrite send_run.
  cbn [world calls logs].
  match goal with |- context [fst (serve ?w ?r)] =>
    destruct (fst (serve w r)) as [r2|] end; [|leaf].
  unfold conflict_result. unfold_monad.
  destruct (status_code r2 =? 200); [|leaf].
  destruct (json r2) as [j|]; [|leaf].
  cbv beta iota.
  destruct (truthy j); [|leaf].
  destruct (py_getitem j (SubInt 0)); leaf.
Qed.

Lemma set_user_password_full token realm user_id p tmp (st : state) :
  set_user_password token realm user_id p tmp st =
    if opt_truthy p then
      let call := reset_password_request token realm user_id p tmp in
      match fst (serve (world st) call) with
      | NoAnswer => (Raise RequestException, advance st call [])
      | Answered resp =>
          if status_code resp =? 204 then (Ok tt, advance st call [])
          else
            (Raise (HTTPException 502 "Failed to set user password"),
             advance st call
               [(ERROR, "Failed to set password for user %s: %s %s",
                 [user_id; PyInt (status_code resp); PyStr (text resp)])])
      end
    else (Ok tt, st).
Proof.
  unfold set_user_password. destruct (opt_truthy p); [|reflexivity].
  cbv zeta. cbn [negb]. unfold bind. rewrite send_run.
  match goal with |- context [fst (serve ?w ?r)] =>
    destruct (fst (serve w r)) as [r2|] end; [|leaf].
  destruct (status_code r2 =? 204); leaf.
Qed.


Lemma post_users_other_error (u : UserCreate) (st : state) (e : exn) :
  fst (create_user u st) = Raise e ->
  (forall c d, e <> HTTPException c d) ->
  fst (post_users u st) = (500, PyStr "Internal Server Error").
Proof.
  unfold post_users. destruct (create_user u st) as [[b|e'] st']; simpl;
    intros H Hne; [discriminate|]. inversion H; subst e'.
  destruct e; try reflexivity. exfalso. eapply Hne. reflexivity.
Qed.

(** ** Token stage, continued *)

(** X6: a token answer with status 200 whose body is an object with an
    "access_token" entry makes the token stage return that entry, with one
    call and no log record; the creation call that follows carries it as
    the bearer token. *)
Theorem token_is_read_and_forwarded (u : UserCreate) (st : state)
    (resp : response) (d : list (string * pyval)) (tok : pyval) :
  fst (serve (world st) token_request) = Answered resp ->
  status_code resp = 200 ->
  json resp = Some (PyDict d) ->
  dict_lookup "access_token" d = Some tok ->
  get_admin_token st = (Ok tok, advance st token_request []) /\
  nth_error (issued u st) 1 =
    Some (create_request tok (KEYCLOAK_REALM cfg) (payload_of u)) /\
  (forall r, nth_error (issued u st) 1 = Some r ->
             dict_lookup "Authorization" (req_headers r) = Some [Lit "Bearer "; Fmt tok]).
Proof.
  intros Hs H200 Hj Hd.
  assert (Ht : get_admin_token st = (Ok tok, advance st token_request [])).
  { rewrite get_admin_token_full, Hs, H200, Hj. simpl. rewrite Hd. reflexivity. }
  assert (Hn : nth_error (issued u st) 1 =
               Some (create_request tok (KEYCLOAK_REALM cfg) (payload_of u)))
    by (rewrite issued_run, Ht; reflexivity).
  split; [exact Ht|]. split; [exact Hn|].
  intros r Hr. rewrite Hn in Hr. inversion Hr. reflexivity.
Qed.

(** X7: a token answer with status 200 from which no token can be read
    (body not JSON, not an object, or without "access_token") is not
    reported as a gateway error: the run ends with an unhandled
    JSONDecodeError, KeyError or TypeError, hence a 500 reply, after the
    token call alone. *)
Theorem unreadable_token_is_server_error (u : UserCreate) (st : state)
    (resp : response) :
  fst (serve (world st) token_request) = Answered resp ->
  status_code resp = 200 ->
  lacks_access_token resp ->
  (exists e, fst (create_user u st) = Raise e /\
             (e = JSONDecodeError \/ e = KeyError \/ e = TypeError)) /\
  fst (post_users u st) = (500, PyStr "Internal Server Error") /\
  issued u st = [token_request].
Proof.
  intros Hs H200 Hl.
  assert (He : exists e, get_admin_token st = (Raise e, advance st token_request []) /\
                         (e = JSONDecodeError \/ e = KeyError \/ e = TypeError)).
  { rewrite get_admin_token_full, Hs, H200. simpl.
    unfold lacks_access_token in Hl.
    destruct (json resp) as [[| | | | |l|d]|]; simpl;
      try rewrite Hl; eexists; split; try reflexivity; auto. }
  destruct He as (e & Ht & He).
  assert (Hu : fst (create_user u st) = Raise e)
    by (rewrite create_user_run, Ht; reflexivity).
  split; [exists e; auto|]. split.
  - apply (post_users_other_error _ _ _ Hu).
    intros c d. destruct He as [->|[->| ->]]; discriminate.
  - rewrite issued_run, Ht. reflexivity.
Qed.

(** ** Provisioning stage, continued *)

(** X8: a creation answer whose status is neither 201 nor 409 ends the run
    with the 502 "Failed to create user in Keycloak" error: no lookup and no
    reset-password call are issued, and one ERROR record holding the
    upstream status and body is logged. *)
Theorem creation_rejected_is_gateway_error (u : UserCreate) (st : state)
    (token : pyval) (st1 : state) (resp : response) :
  get_admin_token st = (Ok token, st1) ->
  fst (serve (world st1) (create_request token (KEYCLOAK_REALM cfg) (payload_of u)))
    = Answered resp ->
  status_code resp <> 201 ->
  status_code resp <> 409 ->
  fst (create_user u st) =
    Raise (HTTPException 502 "Failed to create user in Keycloak") /\
  fst (post_users u st) = (502, detail "Failed to create user in Keycloak") /\
  issued u st =
    [token_request; create_request token (KEYCLOAK_REALM cfg) (payload_of u)] /\
  logs (snd (create_user u st)) =
    logs st1 ++ [(ERROR, "Error creating user: %s %s",
                  [PyInt (status_code resp); PyStr (text resp)])].
Proof.
  intros Ht Hc H201 H409.
  apply Z.eqb_neq in H201. apply Z.eqb_neq in H409.
  pose proof (create_keycloak_user_full token (KEYCLOAK_REALM cfg) (payload_of u) st1) as Hk.
  cbv zeta in Hk. rewrite Hc, H201, H409 in Hk.
  assert (Hu : fst (create_user u st) =
               Raise (HTTPException 502 "Failed to create user in Keycloak"))
    by (rewrite create_user_run, Ht, Hk; reflexivity).
  split; [exact Hu|]. split; [apply post_users_http_error, Hu|]. split.
  - rewrite issued_run, Ht. cbv zeta. rewrite Hk, Hc. unfold conflict_calls.
    rewrite H201, H409. reflexivity.
  - rewrite create_user_run, Ht, Hk. reflexivity.
Qed.


(** ** Shape of a run *)

(** X10: every run starts with the token exchange and follows the pipeline
    order without repeating a call: its methods are POST alone, POST POST,
    POST POST GET, POST POST PUT or POST POST GET PUT; every call uses the
    10 second timeout. *)
Theorem calls_follow_pipeline_order (u : UserCreate) (st : state) :
  hd_error (issued u st) = Some token_request /\
  (map req_method (issued u st) = [POST] \/
   map req_method (issued u st) = [POST; POST] \/
   map req_method (issued u st) = [POST; POST; GET] \/
   map req_method (issued u st) = [POST; POST; PUT] \/
   map req_method (issued u st) = [POST; POST; GET; PUT]) /\
  Forall (fun r => req_timeout r = 10) (issued u st).
Proof.
  rewrite issued_run.
  destruct (get_admin_token st) as [[token|e] st1];
    [|split; [reflexivity | split; [pick | repeat constructor]]].
  cbv zeta. unfold conflict_calls.
  destruct (create_keycloak_user _ _ _ st1) as [[uid|e] st2];
    destruct (fst (serve (world st1) _)) as [resp|];
    try destruct (status_code resp =? 201);
    try destruct (status_code resp =? 409);
    destruct (opt_truthy (password u)); cbn [app map req_method hd_error];
    (split; [reflexivity | split; [pick | repeat constructor]]).
Qed.

(** X11: every call after the token exchange carries the token obtained in
    this run as [Authorization: Bearer] header, with the JSON content
    type. *)
Theorem admin_calls_carry_bearer_token (u : UserCreate) (st : state)
    (token : pyval) (st1 : state) :
  get_admin_token st = (Ok token, st1) ->
  tl (issued u st) <> [] /\
  Forall (fun r =>
            req_headers r =
              [("Authorization", [Lit "Bearer "; Fmt token]);
               ("Content-Type", [Lit "application/json"])])
         (tl (issued u st)).
Proof.
  intros Ht. rewrite issued_run, Ht. cbv zeta. unfold conflict_calls.
  split; [discriminate|].
  destruct (create_keycloak_user _ _ _ st1) as [[uid|e] st2];
    destruct (fst (serve (world st1) _)) as [resp|];
    try destruct (status_code resp =? 201);
    try destruct (status_code resp =? 409);
    destruct (opt_truthy (password u)); cbn [app tl];
    repeat constructor.
Qed.

(** X12: a call that gets no answer ends the run at once with an unhandled
    transport exception, whatever the stage: the reply is a 500 and the
    unanswered call is the last one issued. *)
Theorem unanswered_call_ends_run (u : UserCreate) (st : state) :
  (fst (serve (world st) token_request) = NoAnswer ->
   fst (create_user u st) = Raise RequestException /\
   issued u st = [token_request]) /\
  (forall token st1,
      get_admin_token st = (Ok token, st1) ->
      fst (serve (world st1)
             (create_request token (KEYCLOAK_REALM cfg) (payload_of u))) = NoAnswer ->
      fst (create_user u st) = Raise RequestException /\
      issued u st =
        [token_request; create_request token (KEYCLOAK_REALM cfg) (payload_of u)]) /\
  (forall token st1 resp,
      get_admin_token st = (Ok token, st1) ->
      fst (serve (world st1)
             (create_request token (KEYCLOAK_REALM cfg) (payload_of u)))
        = Answered resp ->
      status_code resp = 409 ->
      fst (serve (snd (serve (world st1)
                         (create_request token (KEYCLOAK_REALM cfg) (payload_of u))))
             (lookup_request token (KEYCLOAK_REALM cfg) (payload_of u))) = NoAnswer ->
      fst (create_user u st) = Raise RequestException /\
      issued u st =
        [token_request;
         create_request token (KEYCLOAK_REALM cfg) (payload_of u);
         lookup_request token (KEYCLOAK_REALM cfg) (payload_of u)]) /\
  (forall token st1 uid st2,
      get_admin_token st = (Ok token, st1) ->
      create_keycloak_user token (KEYCLOAK_REALM cfg) (payload_of u) st1
        = (Ok uid, st2) ->
      opt_truthy (password u) = true ->
      fst (serve (world st2)
             (reset_password_request token (KEYCLOAK_REALM cfg) uid
                (password u) false)) = NoAnswer ->
      fst (create_user u st) = Raise RequestException /\
      exists earlier,
        issued u st =
          earlier ++ [reset_password_request token (KEYCLOAK_REALM cfg) uid
                        (password u) false]) /\
  (fst (create_user u st) = Raise RequestException ->
   fst (post_users u st) = (500, PyStr "Internal Server Error")).
Proof.
  split; [|split; [|split; [|split]]].
  - intros Hs. rewrite issued_run, create_user_run, get_admin_token_full, Hs.
    split; reflexivity.
  - intros token st1 Ht Hc.
    pose proof (create_keycloak_user_full token (KEYCLOAK_REALM cfg) (payload_of u) st1) as Hk.
    cbv zeta in Hk. rewrite Hc in Hk.
    rewrite issued_run, create_user_run, Ht. cbv zeta. rewrite Hk, Hc.
    split; reflexivity.
  - intros token st1 resp Ht Hc H409 Hl.
    pose proof (create_keycloak_user_full token (KEYCLOAK_REALM cfg) (payload_of u) st1) as Hk.
    cbv zeta in Hk. rewrite Hc, H409, Hl in Hk.
    change (409 =? 201) with false in Hk. change (409 =? 409) with true in Hk.
    cbv iota in Hk.
    rewrite issued_run, create_user_run, Ht. cbv zeta. rewrite Hk, Hc.
    unfold conflict_calls. rewrite H409. split; reflexivity.
  - intros token st1 uid st2 Ht Hk Hp Hr. split.
    + rewrite (create_user_after_provision _ _ _ _ _ _ Ht Hk), Hp, Hr. reflexivity.
    + rewrite issued_run, Ht. cbv zeta. rewrite Hk, Hp.
      eexists (_ :: _ :: _). cbn [app]. reflexivity.
  - intros He. apply (post_users_other_error _ _ _ He). discriminate.
Qed.

(** X13: after a 409, a lookup answered 200 with a truthy body that is not
    an array whose first element is an object yields neither an id nor the
    conflict error: the run ends with an unhandled KeyError, TypeError or
    AttributeError, hence a 500 reply, and no reset-password call. *)
Theorem malformed_lookup_is_server_error (u : UserCreate) (st : state)
    (token : pyval) (st1 : state) (resp r : response) (j : pyval) :
  get_admin_token st = (Ok token, st1) ->
  fst (serve (world st1) (create_request token (KEYCLOAK_REALM cfg) (payload_of u)))
    = Answered resp ->
  status_code resp = 409 ->
  fst (serve (snd (serve (world st1)
                     (create_request token (KEYCLOAK_REALM cfg) (payload_of u))))
         (lookup_request token (KEYCLOAK_REALM cfg) (payload_of u))) = Answered r ->
  status_code r = 200 ->
  json r = Some j ->
  truthy j = true ->
  first_is_object j = false ->
  (exists e, fst (create_user u st) = Raise e /\
             (e = KeyError \/ e = TypeError \/ e = AttributeError)) /\
  fst (post_users u st) = (500, PyStr "Internal Server Error") /\
  filter is_put (issued u st) = [].
Proof.
  intros Ht Hc H409 Hl H200 Hj Htr Hobj.
  pose proof (create_keycloak_user_full token (KEYCLOAK_REALM cfg) (payload_of u) st1) as Hk.
  cbv zeta in Hk. rewrite Hc, H409, Hl in Hk.
  change (409 =? 201) with false in Hk. change (409 =? 409) with true in Hk.
  cbv iota in Hk. unfold conflict_result in Hk. rewrite H200, Hj, Htr in Hk.
  change (200 =? 200) with true in Hk. cbv iota in Hk.
  assert (He : exists e,
             match py_getitem j (SubInt 0) with
             | Ok first => py_get first "id"
             | Raise e => Raise e
             end = Raise e /\
             (e = KeyError \/ e = TypeError \/ e = AttributeError)).
  { destruct j as [|b|z|q|s|l|d]; simpl in Htr, Hobj;
      try (eexists; split; [reflexivity | auto]; fail).
    - destruct s as [|a s]; [discriminate|].
      eexists; split; [reflexivity | auto].
    - destruct l as [|x l]; [discriminate|].
      rewrite py_getitem_first.
      destruct x; try discriminate; eexists; split; try reflexivity; auto. }
  destruct He as (e & He & Hcls). rewrite He in Hk.
  assert (Hu : fst (create_user u st) = Raise e)
    by (rewrite create_user_run, Ht, Hk; reflexivity).
  split; [exists e; auto|]. split.
  - apply (post_users_other_error _ _ _ Hu).
    intros c d. destruct Hcls as [->|[->| ->]]; discriminate.
  - rewrite reset_calls_run, Ht, Hk. reflexivity.
Qed.

(** ** Errors that can leave each stage *)

Lemma py_getitem_unhandled (v : pyval) (k : subscript) (e : exn) :
  py_getitem v k = Raise e -> unhandled e = true.
Proof.
  destruct v as [|b|z|q|s|l|d], k as [k|i]; simpl; intros H;
    try (inversion H; reflexivity).
  - destruct (seq_index _ i); [destruct (String.get _ s)|];
      inversion H; reflexivity.
  - destruct (seq_index _ i); [destruct (nth_error l _)|];
      inversion H; reflexivity.
  - destruct (dict_lookup k d); inversion H; reflexivity.
Qed.

Lemma py_get_unhandled (v : pyval) (k : string) (e : exn) :
  py_get v k = Raise e -> unhandled e = true.
Proof. destruct v; simpl; intros H; inversion H; reflexivity. Qed.

Lemma conflict_result_errors (r : response) (e : exn) :
  conflict_result r = Raise e ->
  e = HTTPException 409 "User already exists" \/ unhandled e = true.
Proof.
  unfold conflict_result.
  destruct (status_code r =? 200); [|intros H; inversion H; auto].
  destruct (json r) as [j|]; [|intros H; inversion H; auto].
  destruct (truthy j); [|intros H; inversion H; auto].
  destruct (py_getitem j (SubInt 0)) as [x|e'] eqn:E.
  - intros H. right. eapply py_get_unhandled, H.
  - intros H. inversion H; subst. right. eapply py_getitem_unhandled, E.
Qed.

Lemma get_admin_token_errors (st : state) (e : exn) :
  fst (get_admin_token st) = Raise e ->
  e = HTTPException 502 "Failed to obtain Keycloak admin token" \/
  unhandled e = true.
Proof.
  rewrite get_admin_token_full.
  destruct (fst (serve (world st) token_request)) as [resp|];
    [|intros H; inversion H; auto].
  destruct (status_code resp =? 200); [|intros H; inversion H; auto].
  destruct (json resp) as [j|]; simpl; [|intros H; inversion H; auto].
  intros H. right. eapply py_getitem_unhandled, H.
Qed.

Lemma create_keycloak_user_errors token realm payload (st : state) (e : exn) :
  fst (create_keycloak_user token realm payload st) = Raise e ->
  e = HTTPException 502 "Failed to create user in Keycloak" \/
  (e = HTTPException 409 "User already exists" /\
   exists resp,
     fst (serve (world st) (create_request token realm payload)) = Answered resp /\
     status_code resp = 409) \/
  unhandled e = true.
Proof.
  rewrite create_keycloak_user_full. cbv zeta.
  destruct (fst (serve (world st) (create_request token realm payload)))
    as [resp|]; [|intros H; inversion H; auto].
  destruct (status_code resp =? 201); [discriminate|].
  destruct (status_code resp =? 409) eqn:E409; [|intros H; inversion H; auto].
  apply Z.eqb_eq in E409. simpl fst.
  destruct (fst (serve _ (lookup_request token realm payload))) as [r|];
    [|intros H; inversion H; auto].
  intros H. apply conflict_result_errors in H. destruct H as [->|H]; [|auto].
  right. left. split; [reflexivity|]. exists resp. auto.
Qed.

Lemma set_user_password_errors token realm user_id p tmp (st : state) (e : exn) :
  fst (set_user_password token realm user_id p tmp st) = Raise e ->
  e = HTTPException 502 "Failed to set user password" \/ unhandled e = true.
Proof.
  rewrite set_user_password_full. destruct (opt_truthy p); [|discriminate].
  cbv zeta. destruct (fst (serve _ _)) as [resp|]; [|intros H; inversion H; auto].
  destruct (status_code resp =? 204); [discriminate | intros H; inversion H; auto].
Qed.



(** X15: a run raises the 409 conflict error only when the creation call
    itself was answered 409; the calls are then the token exchange, the
    creation call and the lookup, and no reset-password call is made. *)
Theorem conflict_error_only_after_409 (u : UserCreate) (st : state) (d : string) :
  fst (create_user u st) = Raise (HTTPException 409 d) ->
  d = "User already exists" /\
  exists token st1 resp,
    get_admin_token st = (Ok token, st1) /\
    fst (serve (world st1)
           (create_request token (KEYCLOAK_REALM cfg) (payload_of u)))
      = Answered resp /\
    status_code resp = 409 /\
    issued u st =
      [token_request;
       create_request token (KEYCLOAK_REALM cfg) (payload_of u);
       lookup_request token (KEYCLOAK_REALM cfg) (payload_of u)].
Proof.
  rewrite issued_run, create_user_run. cbv zeta.
  pose proof (get_admin_token_errors st) as H1.
  destruct (get_admin_token st) as [[token|e] st1]; simpl in H1.
  2:{ simpl. intros H. inversion H; subst e.
      destruct (H1 _ eq_refl); discriminate. }
  pose proof (create_keycloak_user_errors token (KEYCLOAK_REALM cfg) (payload_of u) st1) as H2.
  destruct (create_keycloak_user _ _ _ st1) as [[uid|e] st2]; simpl in H2.
  - destruct (opt_truthy (password u)); [|discriminate].
    pose proof (set_user_password_errors token (KEYCLOAK_REALM cfg) uid (password u) false st2) as H3.
    destruct (set_user_password _ _ _ _ _ st2) as [[[]|e] st3]; simpl in H3;
      [discriminate|].
    simpl. intros H. inversion H; subst e. destruct (H3 _ eq_refl); discriminate.
  - simpl. intros H. inversion H; subst e.
    destruct (H2 _ eq_refl) as [Hd|[[Hd (resp & Hc & H409)]|Hd]]; try discriminate.
    inversion Hd; subst d. split; [reflexivity|].
    exists token, st1, resp. split; [reflexivity|]. split; [exact Hc|].
    split; [exact H409|]. rewrite Hc. unfold conflict_calls.
    rewrite H409. reflexivity.
Qed.

(** X16: when the user is created (201) and the reset-password call is
    then refused, the run ends with the 502 "Failed to set user password"
    error and the refused call is its last one: nothing is sent to undo the
    creation. *)
Theorem refused_password_leaves_user_created (u : UserCreate) (st : state)
    (token : pyval) (st1 : state) (resp ack : response) :
  let creation := create_request token (KEYCLOAK_REALM cfg) (payload_of u) in
  let reset :=
    reset_password_request token (KEYCLOAK_REALM cfg)
      (PyStr (user_id_of_location (headers_get (headers resp) "Location" EmptyString)))
      (password u) false in
  get_admin_token st = (Ok token, st1) ->
  fst (serve (world st1) creation) = Answered resp ->
  status_code resp = 201 ->
  opt_truthy (password u) = true ->
  fst (serve (snd (serve (world st1) creation)) reset) = Answered ack ->
  status_code ack <> 204 ->
  fst (create_user u st) = Raise (HTTPException 502 "Failed to set user password") /\
  issued u st = [token_request; creation; reset].
Proof.
  intros creation reset Ht Hc H201 Hp Ha Hn. apply Z.eqb_neq in Hn.
  pose proof (create_keycloak_user_full token (KEYCLOAK_REALM cfg) (payload_of u) st1) as Hk.
  cbv zeta in Hk. fold creation in Hk. rewrite Hc, H201 in Hk.
  change (201 =? 201) with true in Hk. cbv iota in Hk.
  split.
  - rewrite (create_user_after_provision _ _ _ _ _ _ Ht Hk), Hp.
    cbn [world advance]. fold creation reset. rewrite Ha, Hn. reflexivity.
  - rewrite issued_run, Ht. cbv zeta. fold creation. rewrite Hk, Hc, Hp.
    unfold conflict_calls. rewrite H201. reflexivity.
Qed.

(** ** Logging *)

Lemma unhandled_not_gateway {A : Type} (e : exn) :
  unhandled e = true -> is_gateway_error (@Raise A e) = false.
Proof. destruct e; simpl; [discriminate | reflexivity..]. Qed.

Lemma get_admin_token_logs (st : state) :
  exists L,
    logs (snd (get_admin_token st)) = logs st ++ L /\
    existsb is_error_record L = is_gateway_error (fst (get_admin_token st)).
Proof.
  rewrite get_admin_token_full.
  destruct (fst (serve (world st) token_request)) as [resp|];
    [|exists []; split; reflexivity].
  destruct (status_code resp =? 200); [|eexists; split; reflexivity].
  exists []. split; [reflexivity|]. simpl.
  destruct (json resp) as [j|]; [|reflexivity].
  destruct (py_getitem j (SubStr "access_token")) as [x|e] eqn:E; [reflexivity|].
  symmetry. eapply unhandled_not_gateway, py_getitem_unhandled, E.
Qed.

Lemma conflict_result_not_gateway (r : response) :
  is_gateway_error (conflict_result r) = false.
Proof.
  destruct (conflict_result r) as [x|e] eqn:E; [reflexivity|].
  destruct (conflict_result_errors _ _ E) as [->|H];
    [reflexivity | apply unhandled_not_gateway, H].
Qed.

Lemma create_keycloak_user_logs token realm payload (st : state) :
  exists L,
    logs (snd (create_keycloak_user token realm payload st)) = logs st ++ L /\
    existsb is_error_record L =
      is_gateway_error (fst (create_keycloak_user token realm payload st)).
Proof.
  rewrite create_keycloak_user_full. cbv zeta.
  destruct (fst (serve (world st) (create_request token realm payload)))
    as [resp|]; [|exists []; split; reflexivity].
  destruct (status_code resp =? 201); [eexists; split; reflexivity|].
  destruct (status_code resp =? 409); [|eexists; split; reflexivity].
  eexists. split; [unfold advance; simpl; rewrite app_nil_r; reflexivity|].
  simpl. destruct (fst (serve _ (lookup_request token realm payload))) as [r|];
    [|reflexivity].
  symmetry. apply conflict_result_not_gateway.
Qed.

Lemma set_user_password_logs token realm user_id p tmp (st : state) :
  exists L,
    logs (snd (set_user_password token realm user_id p tmp st)) = logs st ++ L /\
    existsb is_error_record L =
      is_gateway_error (fst (set_user_password token realm user_id p tmp st)).
Proof.
  rewrite set_user_password_full.
  destruct (opt_truthy p);
    [|exists []; split; [symmetry; apply app_nil_r | reflexivity]].
  cbv zeta. destruct (fst (serve _ _)) as [resp|];
    [|exists []; split; reflexivity].
  destruct (status_code resp =? 204); eexists; split; reflexivity.
Qed.

(** X17: a run logs an ERROR record exactly when it ends with a 502
    gateway error; conflicts, successes and unhandled exceptions log none.
    Records emitted before the run are kept, in order, before the new
    ones. *)
Theorem gateway_errors_are_logged (u : UserCreate) (st : state) :
  logs (snd (create_user u st)) = logs st ++ logged u st /\
  existsb is_error_record (logged u st) = is_gateway_error (fst (create_user u st)).
Proof.
  assert (H : exists L,
             logs (snd (create_user u st)) = logs st ++ L /\
             existsb is_error_record L = is_gateway_error (fst (create_user u st))).
  { rewrite create_user_run.
    destruct (get_admin_token_logs st) as (L1 & HL1 & HE1).
    destruct (get_admin_token st) as [[token|e] st1]; simpl in HL1, HE1;
      [|exists L1; split; assumption].
    destruct (create_keycloak_user_logs token (KEYCLOAK_REALM cfg) (payload_of u) st1)
      as (L2 & HL2 & HE2).
    destruct (create_keycloak_user _ _ _ st1) as [[uid|e] st2]; simpl in HL2, HE2.
    2:{ exists (L1 ++ L2). split; [simpl; rewrite HL2, HL1; symmetry; apply app_assoc|].
        rewrite existsb_app, HE1, HE2. reflexivity. }
    destruct (opt_truthy (password u)).
    2:{ exists (L1 ++ L2). split; [simpl; rewrite HL2, HL1; symmetry; apply app_assoc|].
        rewrite existsb_app, HE1, HE2. reflexivity. }
    destruct (set_user_password_logs token (KEYCLOAK_REALM cfg) uid (password u) false st2)
      as (L3 & HL3 & HE3).
    destruct (set_user_password _ _ _ _ _ st2) as [[[]|e] st3];
      simpl in HL3, HE3; exists (L1 ++ L2 ++ L3);
      (split; [simpl; rewrite HL3, HL2, HL1; now rewrite <- !app_assoc|]);
      rewrite !existsb_app, HE1, HE2, HE3; reflexivity. }
  destruct H as (L & HL & HE).
  assert (Hlog : logged u st = L)
    by (unfold logged; rewrite HL; apply skipn_length_app).
  rewrite Hlog. split; assumption.
Qed.


End Api.

(** ** Runs against a scripted identity service *)

Import Sample.

(** C4 at a token endpoint answering 401. *)
Lemma token_rejected_no_creation_call_witness :
  fst (create_user script play settings alice
         (initial script [Answered token_denied])) =
    Raise (HTTPException 502 "Failed to obtain Keycloak admin token") /\
  fst (fst (post_users script play settings alice
              (initial script [Answered token_denied]))) = 502 /\
  issued script play settings alice (initial script [Answered token_denied]) =
    [token_request settings] /\
  creation_payloads
    (issued script play settings alice (initial script [Answered token_denied])) = [].
Proof.
  apply (token_rejected_no_creation_call script play settings alice
           (initial script [Answered token_denied]) token_denied []).
  - reflexivity.
  - discriminate.
Defined.


(** An identifier that cannot be rendered: the lookup body [{"id": 1e999}]
    decodes to an infinity, [create_user] returns it without raising, and
    the client receives the 500 server error. *)
Lemma conflict_lookup_with_unrenderable_id :
  fst (create_user script play settings alice
         (initial script [Answered token_ok; Answered conflict;
                          Answered found_unrenderable])) =
    Ok (PyDict [("id", PyFloat PrimFloat.infinity); ("username", PyStr "alice")]) /\
  fst (post_users script play settings alice
         (initial script [Answered token_ok; Answered conflict;
                          Answered found_unrenderable])) =
    (500, PyStr "Internal Server Error").
Proof. split; reflexivity. Qed.


(** C2 fails on the code: after a 409, a lookup answered 200 with an array
    whose first element has no "id" field yields no identifier, yet the
    request is answered 201 with a null id; with a password the same run
    goes on to the reset-password call and ends with the generic 502; and a
    200 whose body does not decode ends in a server error. *)
Theorem lookup_without_id_is_not_reported_as_conflict :
  fst (post_users script play settings alice
         (initial script [Answered token_ok; Answered conflict;
                          Answered found_without_id])) =
    (201, PyDict [("id", PyNone); ("username", PyStr "alice")]) /\
  fst (post_users script play settings alice_pw
         (initial script [Answered token_ok; Answered conflict;
                          Answered found_without_id; Answered not_found])) =
    (502, PyDict [("detail", PyStr "Failed to set user password")]) /\
  fst (post_users script play settings alice
         (initial script [Answered token_ok; Answered conflict;
                          Answered found_garbled])) =
    (500, PyStr "Internal Server Error").
Proof. repeat split. Qed.

(** C3 at a 201 answer that has no [Location] header. *)
Lemma created_without_location_gives_empty_id_witness :
  fst (create_user script play settings alice
         (initial script [Answered token_ok; Answered created_bare])) =
    Ok (PyDict [("id", PyStr EmptyString); ("username", PyStr "alice")]) /\
  fst (post_users script play settings alice
         (initial script [Answered token_ok; Answered created_bare])) =
    (201, PyDict [("id", PyStr EmptyString); ("username", PyStr "alice")]).
Proof.
  destruct (created_without_location_gives_empty_id script play settings alice
              (initial script [Answered token_ok; Answered created_bare])
              (PyStr "tok") _ created_bare [] eq_refl eq_refl eq_refl eq_refl)
    as (_ & Hrun & Hbody).
  split; [exact Hrun | exact (proj2 (Hbody _ Hrun))].
Defined.

(** C5 at a request that supplies only the username. *)
Lemma omitted_optional_fields_not_sent_witness :
  creation_payloads
    (issued script play settings alice
       (initial script [Answered token_ok;
                        Answered (created_at "http://keycloak:8080/admin/realms/waitlist/users/42")])) =
    [[("username", PyStr "alice"); ("enabled", PyBool true);
      ("emailVerified", PyBool false)]] /\
  ~ In "email" (dict_keys (payload_of alice)) /\
  ~ In "firstName" (dict_keys (payload_of alice)) /\
  ~ In "lastName" (dict_keys (payload_of alice)).
Proof.
  destruct (omitted_optional_fields_not_sent script play settings alice
              (initial script [Answered token_ok;
                               Answered (created_at "http://keycloak:8080/admin/realms/waitlist/users/42")]))
    as (Hsent & He & Hf & Hl & _).
  split; [exact Hsent|].
  split; [exact (He eq_refl)|]. split; [exact (Hf eq_refl) | exact (Hl eq_refl)].
Defined.

(** C6 at two requests that differ only in the password. *)
Lemma response_body_independent_of_password_witness :
  exists b : pyval,
    fst (create_user script play settings (with_password alice (Some "s3cret"))
           (initial script [Answered token_ok;
                            Answered (created_at "http://keycloak:8080/admin/realms/waitlist/users/42/");
                            Answered no_content])) = Ok b /\
    fst (create_user script play settings (with_password alice (Some "another"))
           (initial script [Answered token_ok;
                            Answered (created_at "http://keycloak:8080/admin/realms/waitlist/users/42/");
                            Answered no_content])) = Ok b /\
    body_keys b = ["id"; "username"].
Proof.
  exists (PyDict [("id", PyStr "42"); ("username", PyStr "alice")]).
  split; [reflexivity|]. split; [reflexivity|].
  exact (proj1 (response_body_independent_of_password script play settings alice
                  (Some "s3cret") (Some "another")
                  (initial script [Answered token_ok;
                                   Answered (created_at "http://keycloak:8080/admin/realms/waitlist/users/42/");
                                   Answered no_content])
                  _ _ eq_refl eq_refl)).
Defined.

(** C7 at a request without a password whose username already exists. *)
Lemma no_password_no_reset_call_witness :
  filter is_put
    (issued script play settings alice
       (initial script [Answered token_ok; Answered conflict; Answered found_abc])) = [] /\
  issued script play settings alice
    (initial script [Answered token_ok; Answered conflict; Answered found_abc]) =
    [token_request settings;
     create_request settings (PyStr "tok") "waitlist" (payload_of alice);
     lookup_request settings (PyStr "tok") "waitlist" (payload_of alice)].
Proof.
  exact (no_password_no_reset_call script play settings alice
           (initial script [Answered token_ok; Answered conflict; Answered found_abc])
           eq_refl).
Defined.

(** C8 at a request with a password, once accepted and once refused. *)
Lemma password_set_call_outcome_witness :
  filter is_put
    (issued script play settings alice_pw
       (initial script [Answered token_ok;
                        Answered (created_at "http://keycloak:8080/admin/realms/waitlist/users/42");
                        Answered not_found])) =
    [reset_password_request settings (PyStr "tok") "waitlist" (PyStr "42")
       (Some "s3cret") false] /\
  fst (create_user script play settings alice_pw
         (initial script [Answered token_ok;
                          Answered (created_at "http://keycloak:8080/admin/realms/waitlist/users/42");
                          Answered not_found])) =
    Raise (HTTPException 502 "Failed to set user password").
Proof.
  destruct (password_set_call_outcome script play settings alice_pw
              (initial script [Answered token_ok;
                               Answered (created_at "http://keycloak:8080/admin/realms/waitlist/users/42");
                               Answered not_found])
              (PyStr "tok") _ (PyStr "42") _ eq_refl eq_refl eq_refl)
    as (Hput & _ & _ & Hfail).
  split; [exact Hput|].
  refine (proj1 (Hfail not_found eq_refl _)). discriminate.
Defined.

(** C9 at a request whose password is the empty string. *)
Lemma blank_password_is_no_password_witness :
  create_user script play settings alice_blank
    (initial script [Answered token_ok; Answered created_bare; Answered server_error]) =
  create_user script play settings alice
    (initial script [Answered token_ok; Answered created_bare; Answered server_error]) /\
  filter is_put
    (issued script play settings alice_blank
       (initial script [Answered token_ok; Answered created_bare; Answered server_error])) = [].
Proof.
  destruct (blank_password_is_no_password script play settings alice
              (initial script [Answered token_ok; Answered created_bare;
                               Answered server_error]))
    as (Hsame & Hput & _).
  split; [exact Hsame | exact Hput].
Defined.

(** C10 at a request with a password. *)
Lemma creation_payload_never_has_password_witness :
  creation_payloads
    (issued script play settings alice_pw
       (initial script [Answered token_ok; Answered conflict; Answered found_abc;
                        Answered no_content])) =
    [[("username", PyStr "alice"); ("enabled", PyBool true);
      ("emailVerified", PyBool false)]] /\
  filter (fun r => negb (is_put r))
    (issued script play settings alice_pw
       (initial script [Answered token_ok; Answered conflict; Answered found_abc;
                        Answered no_content])) =
    [token_request settings;
     create_request settings (PyStr "tok") "waitlist" (payload_of alice);
     lookup_request settings (PyStr "tok") "waitlist" (payload_of alice)].
Proof.
  destruct (creation_payload_never_has_password script play settings alice_pw
              (initial script [Answered token_ok; Answered conflict;
                               Answered found_abc; Answered no_content]))
    as (Hsent & _ & _ & _ & Hother).
  split; [exact Hsent | exact Hother].
Defined.

(** ** Further runs against the scripted service *)

(** X1 at the Location value Keycloak sends, with two trailing slashes. *)
Lemma user_id_is_last_path_segment_witness :
  user_id_of_location "http://keycloak:8080/admin/realms/waitlist/users/42//" = "42".
Proof.
  refine (user_id_is_last_path_segment
            "http://keycloak:8080/admin/realms/waitlist/users" "42" 2 _ eq_refl).
  discriminate.
Defined.

(** X5 at a request that supplies every field. *)
Lemma payload_carries_present_fields_witness :
  dict_lookup "email" (payload_of bob) = Some (PyStr "bob@example.org") /\
  dict_lookup "firstName" (payload_of bob) = Some (PyStr "Bob") /\
  dict_lookup "lastName" (payload_of bob) = Some (PyStr "Builder") /\
  NoDup (dict_keys (payload_of bob)).
Proof.
  destruct (payload_carries_present_fields settings bob)
    as (_ & _ & _ & He & Hf & Hl & Hnd & _).
  split; [exact (He _ eq_refl)|]. split; [exact (Hf _ eq_refl)|].
  split; [exact (Hl _ eq_refl) | exact Hnd].
Defined.

(** X6 at a well-formed token answer. *)
Lemma token_is_read_and_forwarded_witness :
  get_admin_token script play settings (initial script [Answered token_ok]) =
    (Ok (PyStr "tok"),
     advance script play (initial script [Answered token_ok])
       (token_request settings) []) /\
  nth_error (issued script play settings alice (initial script [Answered token_ok])) 1 =
    Some (create_request settings (PyStr "tok") "waitlist" (payload_of alice)).
Proof.
  destruct (token_is_read_and_forwarded script play settings alice
              (initial script [Answered token_ok]) token_ok
              [("access_token", PyStr "tok"); ("expires_in", PyInt 60)] (PyStr "tok")
              eq_refl eq_refl eq_refl eq_refl)
    as (Ht & Hn & _).
  split; [exact Ht | exact Hn].
Defined.

(** X7 at a 200 token answer whose body is not JSON. *)
Lemma unreadable_token_is_server_error_witness :
  fst (post_users script play settings alice
         (initial script [Answered found_garbled; Answered created_bare])) =
    (500, PyStr "Internal Server Error") /\
  issued script play settings alice
    (initial script [Answered found_garbled; Answered created_bare]) =
    [token_request settings].
Proof.
  exact (proj2 (unreadable_token_is_server_error script play settings alice
                  (initial script [Answered found_garbled; Answered created_bare])
                  found_garbled eq_refl eq_refl I)).
Defined.

(** X8 at a creation call answered 400. *)
Lemma creation_rejected_is_gateway_error_witness :
  fst (post_users script play settings bob
         (initial script [Answered token_ok; Answered bad_request;
                          Answered no_content])) =
    (502, detail "Failed to create user in Keycloak") /\
  issued script play settings bob
    (initial script [Answered token_ok; Answered bad_request; Answered no_content]) =
    [token_request settings;
     create_request settings (PyStr "tok") "waitlist" (payload_of bob)].
Proof.
  destruct (creation_rejected_is_gateway_error script play settings bob
              (initial script [Answered token_ok; Answered bad_request;
                               Answered no_content])
              (PyStr "tok") _ bad_request eq_refl eq_refl)
    as (_ & Hreply & Hcalls & _); try discriminate.
  split; [exact Hreply | exact Hcalls].
Defined.


(** X11 at a run that goes through the conflict lookup. *)
Lemma admin_calls_carry_bearer_token_witness :
  Forall (fun r =>
            req_headers r =
              [("Authorization", [Lit "Bearer "; Fmt (PyStr "tok")]);
               ("Content-Type", [Lit "application/json"])])
         (tl (issued script play settings alice_pw
                (initial script [Answered token_ok; Answered conflict;
                                 Answered found_abc; Answered no_content]))).
Proof.
  exact (proj2 (admin_calls_carry_bearer_token script play settings alice_pw
                  (initial script [Answered token_ok; Answered conflict;
                                   Answered found_abc; Answered no_content])
                  (PyStr "tok") _ eq_refl)).
Defined.

(** X12 at a lookup that gets no answer. *)
Lemma unanswered_call_ends_run_witness :
  fst (create_user script play settings alice
         (initial script [Answered token_ok; Answered conflict])) =
    Raise RequestException /\
  issued script play settings alice
    (initial script [Answered token_ok; Answered conflict]) =
    [token_request settings;
     create_request settings (PyStr "tok") "waitlist" (payload_of alice);
     lookup_request settings (PyStr "tok") "waitlist" (payload_of alice)].
Proof.
  destruct (unanswered_call_ends_run script play settings alice
              (initial script [Answered token_ok; Answered conflict]))
    as (_ & _ & Hlookup & _).
  exact (Hlookup (PyStr "tok") _ conflict eq_refl eq_refl eq_refl eq_refl).
Defined.

(** X13 at a lookup answered with an array of strings. *)
Lemma malformed_lookup_is_server_error_witness :
  fst (post_users script play settings alice_pw
         (initial script [Answered token_ok; Answered conflict;
                          Answered (lookup_answer (PyList [PyStr "alice"]));
                          Answered no_content])) =
    (500, PyStr "Internal Server Error") /\
  filter is_put
    (issued script play settings alice_pw
       (initial script [Answered token_ok; Answered conflict;
                        Answered (lookup_answer (PyList [PyStr "alice"]));
                        Answered no_content])) = [].
Proof.
  exact (proj2 (malformed_lookup_is_server_error script play settings alice_pw
                  (initial script [Answered token_ok; Answered conflict;
                                   Answered (lookup_answer (PyList [PyStr "alice"]));
                                   Answered no_content])
                  (PyStr "tok") _ conflict
                  (lookup_answer (PyList [PyStr "alice"])) (PyList [PyStr "alice"])
                  eq_refl eq_refl eq_refl eq_refl eq_refl eq_refl eq_refl eq_refl)).
Defined.

(** X15 at a conflict whose lookup finds nothing. *)
Lemma conflict_error_only_after_409_witness :
  exists token,
    issued script play settings alice_pw
      (initial script [Answered token_ok; Answered conflict;
                       Answered (lookup_answer (PyList []))]) =
      [token_request settings;
       create_request settings token "waitlist" (payload_of alice_pw);
       lookup_request settings token "waitlist" (payload_of alice_pw)].
Proof.
  destruct (conflict_error_only_after_409 script play settings alice_pw
              (initial script [Answered token_ok; Answered conflict;
                               Answered (lookup_answer (PyList []))])
              "User already exists" eq_refl)
    as (_ & token & st1 & resp & _ & _ & _ & Hcalls).
  exists token. exact Hcalls.
Defined.

(** X16 at a created user whose password is refused. *)
Lemma refused_password_leaves_user_created_witness :
  fst (create_user script play settings bob
         (initial script [Answered token_ok; Answered (created_at user_42);
                          Answered server_error])) =
    Raise (HTTPException 502 "Failed to set user password") /\
  issued script play settings bob
    (initial script [Answered token_ok; Answered (created_at user_42);
                     Answered server_error]) =
    [token_request settings;
     create_request settings (PyStr "tok") "waitlist" (payload_of bob);
     reset_password_request settings (PyStr "tok") "waitlist" (PyStr "42")
       (Some "pa55") false].
Proof.
  refine (refused_password_leaves_user_created script play settings bob
            (initial script [Answered token_ok; Answered (created_at user_42);
                             Answered server_error])
            (PyStr "tok") _ (created_at user_42) server_error
            eq_refl eq_refl eq_refl eq_refl eq_refl _).
  discriminate.
Defined.

